(** * The VM disk builder of distrobuilder ([distrobuilder/vm.go])

    A shallow embedding of the [vm] type and its methods, and the
    properties of the disk-image lifecycle: loop-device attach and detach,
    device-node reconciliation, filesystem creation, partition mounts and
    PARTUUID lookup.

    The methods of [vm] talk to the host through external commands and
    system calls.  The host is an interface ([Host]) whose answers are
    arbitrary; every call that can change the host is appended to a log, so
    that "which commands were issued, in which order, with which result" is
    an observable of the model. *)

From Stdlib Require Import String Ascii List ZArith NArith Bool Lia.
Import ListNotations.
Local Open Scope string_scope.

Set Implicit Arguments.

(* ===================================================================== *)
(** ** Go values used by [vm.go] *)
(* ===================================================================== *)

(** Go's [error] values, as far as [vm.go] builds or receives them.
    [fmt_Errorf] keeps the format string and its operands apart;
    [fmt_Errorf_w] is a format with a [%w] verb, whose operand is the wrapped
    error. *)
Inductive error : Type :=
| errors_New (text : string)
| fmt_Errorf (format : string) (args : list string)
| fmt_Errorf_w (format : string) (args : list string) (wrapped : error)
| strconv_NumError (Func Num : string) (Err : error).

Definition strconv_ErrSyntax : error := errors_New "invalid syntax".
Definition strconv_ErrRange : error := errors_New "value out of range".

(** [fmt.Sprintf("%sp2", s)] and [fmt.Sprintf("%s/@", s)]: the only uses of
    [Sprintf] are one [%s] verb followed by a literal. *)
Definition fmt_Sprintf_s (s suffix : string) : string := s ++ suffix.

(** Fixed-width conversions ([int] is 64 bits on the platforms the builder
    runs on). *)
Definition uint32_of (z : Z) : Z := z mod 2 ^ 32.
Definition int64_of (z : Z) : Z := (z + 2 ^ 63) mod 2 ^ 64 - 2 ^ 63.

Module strings.

(** [strings.Split(s, sep)] for a non-empty [sep]: the pieces of [s]
    between the occurrences of [sep], scanned from the left.  [skip]
    counts the bytes of a separator still to be passed over. *)
Fixpoint split_from (sep : string) (skip : nat) (piece s : string)
  : list string :=
  match s with
  | EmptyString => [piece]
  | String c s' =>
      match skip with
      | S k => split_from sep k piece s'
      | O =>
          if String.prefix sep s
          then piece :: split_from sep (String.length sep - 1) "" s'
          else split_from sep 0 (piece ++ String c "") s'
      end
  end.

(** With an empty separator Go cuts after every UTF-8 sequence; [vm.go]
    only splits on ["\n"] and [":"], and the bytes are returned here. *)
Definition Split (s sep : string) : list string :=
  match sep with
  | EmptyString => map (fun c => String c "") (list_ascii_of_string s)
  | _ => split_from sep 0 "" s
  end.

Definition Join (elems : list string) (sep : string) : string :=
  String.concat sep elems.

Definition byte (n : N) : ascii := ascii_of_N n.

(** The UTF-8 encodings of the code points for which [unicode.IsSpace]
    holds: tab, LF, VT, FF, CR, space, U+0085, U+00A0, U+1680,
    U+2000..U+200A, U+2028, U+2029, U+202F, U+205F, U+3000. *)
Definition space_runes : list (list ascii) :=
  map (map byte)
    (List.app
       [ [9]; [10]; [11]; [12]; [13]; [32];
         [194; 133]; [194; 160]; [225; 154; 128] ]
       (List.app
          (map (fun k => [226; 128; k])
             [128; 129; 130; 131; 132; 133; 134; 135; 136; 137; 138])
          [ [226; 128; 168]; [226; 128; 169]; [226; 128; 175];
            [226; 129; 159]; [227; 128; 128] ]))%N.

Fixpoint strip_prefix (p l : list ascii) : option (list ascii) :=
  match p, l with
  | [], _ => Some l
  | a :: p', b :: l' => if Ascii.eqb a b then strip_prefix p' l' else None
  | _ :: _, [] => None
  end.

Fixpoint strip_any (runes : list (list ascii)) (l : list ascii)
  : option (list ascii) :=
  match runes with
  | [] => None
  | r :: rest =>
      match strip_prefix r l with
      | Some l' => Some l'
      | None => strip_any rest l
      end
  end.

(** Drop leading runes of [runes]; [n] bounds the number of runes
    dropped and is the length of the input at the call sites. *)
Fixpoint trim_runes (runes : list (list ascii)) (n : nat) (l : list ascii)
  : list ascii :=
  match n with
  | O => l
  | S n' =>
      match strip_any runes l with
      | Some l' => trim_runes runes n' l'
      | None => l
      end
  end.

Definition trim_left (l : list ascii) : list ascii :=
  trim_runes space_runes (List.length l) l.

Definition trim_right (l : list ascii) : list ascii :=
  rev (trim_runes (map (@rev ascii) space_runes) (List.length l) (rev l)).

(** [strings.TrimSpace]: white space removed at both ends. *)
Definition TrimSpace (s : string) : string :=
  string_of_list_ascii (trim_right (trim_left (list_ascii_of_string s))).

End strings.

Module strconv.

Definition digit (c : ascii) : option Z :=
  let n := Z.of_N (N_of_ascii c) in
  if ((48 <=? n) && (n <=? 57))%Z then Some (n - 48)%Z else None.

(** What the digit loop of [ParseUint] (base 10, 64 bits) finds: a byte
    that is no digit is a syntax error, a value that leaves [uint64] a
    range error, whichever comes first. *)
Inductive scanned : Type :=
| Digits (n : Z)
| BadSyntax
| OutOfRange.

Fixpoint parse_digits (acc : Z) (s : string) : scanned :=
  match s with
  | EmptyString => Digits acc
  | String c s' =>
      match digit c with
      | None => BadSyntax
      | Some d =>
          let acc' := (10 * acc + d)%Z in
          if (2 ^ 64 <=? acc')%Z then OutOfRange
          else parse_digits acc' s'
      end
  end.

(** [strconv.Atoi]: an optional sign and decimal digits, in the range of
    [int].  On a range error Go returns the nearest bound. *)
Definition Atoi (s : string) : Z * option error :=
  let syntaxError := Some (strconv_NumError "Atoi" s strconv_ErrSyntax) in
  let rangeError := Some (strconv_NumError "Atoi" s strconv_ErrRange) in
  let '(neg, body) :=
    match s with
    | String "-" s' => (true, s')
    | String "+" s' => (false, s')
    | _ => (false, s)
    end in
  match body with
  | EmptyString => (0%Z, syntaxError)
  | _ =>
      match parse_digits 0 body with
      | BadSyntax => (0%Z, syntaxError)
      | OutOfRange => ((if neg then - 2 ^ 63 else 2 ^ 63 - 1)%Z, rangeError)
      | Digits un =>
          if negb neg && (2 ^ 63 <=? un)%Z
          then ((2 ^ 63 - 1)%Z, rangeError)
          else if neg && (2 ^ 63 <? un)%Z
          then ((- 2 ^ 63)%Z, rangeError)
          else ((if neg then - un else un)%Z, None)
      end
  end.

End strconv.

Module unix.

Definition S_IFBLK : Z := 0x6000.

(** [unix.Mkdev(major, minor uint32) uint64] of [golang.org/x/sys/unix]
    on Linux. *)
Definition Mkdev (major minor : Z) : Z :=
  let dev := Z.shiftl (Z.land major 0x00000fff) 8 in
  let dev := Z.lor dev (Z.shiftl (Z.land major 0xfffff000) 32) in
  let dev := Z.lor dev (Z.shiftl (Z.land minor 0x000000ff) 0) in
  let dev := Z.lor dev (Z.shiftl (Z.land minor 0xffffff00) 12) in
  dev mod 2 ^ 64.

End unix.

Module filepath.

(** The elements of a cleaned path, last element first: empty and [.]
    elements vanish, [..] removes the element before it, is dropped at the
    root and is kept in front of a relative path. *)
Fixpoint clean_elems (rooted : bool) (stack : list string)
  (elems : list string) : list string :=
  match elems with
  | [] => stack
  | e :: rest =>
      if String.eqb e "" || String.eqb e "." then
        clean_elems rooted stack rest
      else if String.eqb e ".." then
        match stack with
        | top :: below =>
            if String.eqb top ".."
            then clean_elems rooted (e :: stack) rest
            else clean_elems rooted below rest
        | [] =>
            if rooted then clean_elems rooted [] rest
            else clean_elems rooted [e] rest
        end
      else clean_elems rooted (e :: stack) rest
  end.

Definition Clean (path : string) : string :=
  let rooted := String.prefix "/" path in
  let body := strings.Join (rev (clean_elems rooted [] (strings.Split path "/"))) "/" in
  let out := if rooted then "/" ++ body else body in
  if String.eqb out "" then "." else out.

(** [filepath.Join]: leading empty elements are ignored, the rest is
    joined with the separator and cleaned. *)
Fixpoint Join (elem : list string) : string :=
  match elem with
  | [] => ""
  | e :: rest =>
      if String.eqb e "" then Join rest
      else Clean (strings.Join elem "/")
  end.

End filepath.

(** [lxd.StringInSlice(key, list)]. *)
Fixpoint lxd_StringInSlice (key : string) (l : list string) : bool :=
  match l with
  | [] => false
  | entry :: rest => if String.eqb entry key then true else lxd_StringInSlice key rest
  end.

Definition LF : string := String (ascii_of_N 10) "".

(* ===================================================================== *)
(** ** The host *)
(* ===================================================================== *)

(** What the builder asks of the host.  Every operation takes the host
    state and returns its answer with the next host state;
    [lxd_PathExists] only looks.  A file handle is named by the path it was
    created at. *)
Class Host (H : Type) : Type := {
  lxd_RunCommand : H -> string -> list string -> (string * option error) * H;
  shared_RunCommand : H -> string -> list string -> option error * H;
  lxd_PathExists : H -> string -> bool;
  unix_Mknod : H -> string -> Z -> Z -> option error * H;
  os_Remove : H -> string -> option error * H;
  os_Create : H -> string -> option error * H;
  File_Chmod : H -> string -> Z -> option error * H;
  File_Truncate : H -> string -> Z -> option error * H;
  File_Close : H -> string -> option error * H;
  os_MkdirAll : H -> string -> Z -> option error * H
}.

(** The calls that are logged, and a log entry: the call and the error it
    returned ([None] is Go's [nil]). *)
Inductive call : Type :=
| Exec (name : string) (args : list string)
| Mknod (path : string) (mode dev : Z)
| Remove (path : string)
| Create (path : string)
| Chmod (path : string) (mode : Z)
| Truncate (path : string) (length : Z)
| Close (path : string)
| MkdirAll (path : string) (perm : Z).

Record event : Type := Event { ev_call : call; ev_err : option error }.

(** How a Go function call ends: it returns, or a run-time panic unwinds
    it. *)
Inductive outcome (A : Type) : Type :=
| Returned (a : A)
| Panicked (msg : string).
Arguments Panicked {A} msg.

(** ** The [vm] struct *)

Record vm : Type := Vm {
  imageFile : string;
  loopDevice : string;
  rootFS : string;
  rootfsDir : string;
  size : N
}.

Definition with_loopDevice (v : vm) (dev : string) : vm :=
  {| imageFile := imageFile v;
     loopDevice := dev;
     rootFS := rootFS v;
     rootfsDir := rootfsDir v;
     size := size v |}.

(** [newVM]: the pair Go returns, [(nil, err)] or [(&vm{...}, nil)].  The
    function calls nothing of the host. *)
Definition newVM (imageFile rootfsDir fs : string) (size : N)
  : option vm * option error :=
  let fs := if String.eqb fs "" then "ext4" else fs in
  if negb (lxd_StringInSlice fs ["btrfs"; "ext4"]) then
    (None, Some (fmt_Errorf "Unsupported fs: %s" [fs]))
  else
    let size := if N.eqb size 0 then 4294967296%N else size in
    (Some {| imageFile := imageFile; loopDevice := ""; rootFS := fs;
             rootfsDir := rootfsDir; size := size |},
     None).

Definition getLoopDev (v : vm) : string := loopDevice v.

(** The error of the guards [if v.loopDevice == ""]. *)
Definition ErrNotMounted : error := errors_New "Disk image not mounted".

Definition getRootfsDevFile (v : vm) : string :=
  if String.eqb (loopDevice v) "" then ""
  else fmt_Sprintf_s (loopDevice v) "p2".

Definition getUEFIDevFile (v : vm) : string :=
  if String.eqb (loopDevice v) "" then ""
  else fmt_Sprintf_s (loopDevice v) "p1".

(* ===================================================================== *)
(** ** Methods of [vm] *)
(* ===================================================================== *)

Section Methods.

Context {H : Type} `{Host H}.

(** The host state and the log of the calls made so far, oldest first. *)
Record world : Type := World { host : H; log : list event }.

(** A method of [*vm]: from the receiver and the world to how the call
    ends, the receiver and the world at that point. *)
Definition M (A : Type) : Type := vm -> world -> outcome A * vm * world.

Definition ret {A} (a : A) : M A := fun v w => (Returned a, v, w).

Definition bind {A B} (m : M A) (k : A -> M B) : M B :=
  fun v w =>
    match m v w with
    | (Returned a, v', w') => k a v' w'
    | (Panicked msg, v', w') => (Panicked msg, v', w')
    end.

Definition panic {A} (msg : string) : M A := fun v w => (Panicked msg, v, w).

(** The receiver, and the one assignment the methods make to it. *)
Definition this : M vm := fun v w => (Returned v, v, w).

Definition assign_loopDevice (dev : string) : M unit :=
  fun v w => (Returned tt, with_loopDevice v dev, w).

(** A host call that returns only an error. *)
Definition host_call (c : call) (f : H -> option error * H)
  : M (option error) :=
  fun v w =>
    let '(err, h') := f (host w) in
    (Returned err, v, {| host := h'; log := log w ++ [Event c err] |}).

Definition lxd_run (name : string) (args : list string)
  : M (string * option error) :=
  fun v w =>
    let '((stdout, err), h') := lxd_RunCommand (host w) name args in
    (Returned (stdout, err), v,
     {| host := h'; log := log w ++ [Event (Exec name args) err] |}).

Definition shared_run (name : string) (args : list string)
  : M (option error) :=
  host_call (Exec name args) (fun h => shared_RunCommand h name args).

Definition path_exists (path : string) : M bool :=
  fun v w => (Returned (lxd_PathExists (host w) path), v, w).

(** [s[i]] on a slice: a run-time panic when [i] is out of range. *)
Definition index {A} (s : list A) (i : nat) : M A :=
  match nth_error s i with
  | Some a => ret a
  | None => panic "runtime error: index out of range"
  end.

(** [defer d] followed by [body]: [d] runs when [body] has returned or
    panicked, and what [d] returns is dropped. *)
Definition defer {A B} (d : M B) (body : M A) : M A :=
  fun v w =>
    let '(r, v1, w1) := body v w in
    let '(_, v2, w2) := d v1 w1 in
    (r, v2, w2).

End Methods.

Declare Scope go_scope.
Delimit Scope go_scope with go.
Notation "x <- m ;; k" := (bind m (fun x => k))
  (at level 61, m at next level, right associativity) : go_scope.
Notation "' pat <- m ;; k" := (bind m (fun x => match x with pat => k end))
  (at level 61, pat pattern, m at next level, right associativity) : go_scope.
Notation "m ;;; k" := (bind m (fun _ => k))
  (at level 61, right associativity) : go_scope.
Local Open Scope go_scope.

Section VM.

Context {H : Type} `{Host H}.

Definition createEmptyDiskImage : M (option error) :=
  v <- this ;;
  err <- host_call (Create (imageFile v)) (fun h => os_Create h (imageFile v)) ;;
  match err with
  | Some err =>
      ret (Some (fmt_Errorf_w "Failed to open %s: %w" [imageFile v] err))
  | None =>
      defer (host_call (Close (imageFile v)) (fun h => File_Close h (imageFile v)))
        (err <- host_call (Chmod (imageFile v) 384)  (* 0600 *)
                  (fun h => File_Chmod h (imageFile v) 384) ;;
         match err with
         | Some err =>
             ret (Some (fmt_Errorf_w "Failed to chmod %s: %w" [imageFile v] err))
         | None =>
             let length := int64_of (Z.of_N (size v)) in
             err <- host_call (Truncate (imageFile v) length)
                      (fun h => File_Truncate h (imageFile v) length) ;;
             match err with
             | Some err =>
                 ret (Some (fmt_Errorf_w "Failed to create sparse file %s: %w"
                              [imageFile v] err))
             | None => ret None
             end
         end)
  end.

(** The [for _, cmd := range args] loop of [createPartitions]. *)
Fixpoint createPartitions_range (args : list (list string))
  : M (option error) :=
  match args with
  | [] => ret None
  | cmd :: rest =>
      v <- this ;;
      err <- shared_run "sgdisk" (imageFile v :: cmd) ;;
      match err with
      | Some err =>
          ret (Some (fmt_Errorf_w "Failed to create partitions: %w" [] err))
      | None => createPartitions_range rest
      end
  end.

Definition createPartitions : M (option error) :=
  createPartitions_range
    [ ["--zap-all"];
      ["--new=1::+100M"; "-t 1:EF00"];
      ["--new=2::"; "-t 2:8300"] ].

(** The body of the two [if !lxd.PathExists(...)] blocks of [mountImage]:
    they differ in the getter ([getUEFIDevFile], [getRootfsDevFile]) and
    in the line of the listing they read (1, 2).  [Some err] leaves
    [mountImage] with [err]; [None] falls through to what follows. *)
Definition mountImage_node (getDevFile : vm -> string) (line : nat)
  (deviceNumbers : list string) : M (option error) :=
  v <- this ;;
  present <- path_exists (getDevFile v) ;;
  if negb present then
    entry <- index deviceNumbers line ;;
    let fields := strings.Split entry ":" in
    f0 <- index fields 0 ;;
    let '(major, err) := strconv.Atoi f0 in
    match err with
    | Some err => ret (Some (fmt_Errorf_w "Failed to parse %q: %w" [f0] err))
    | None =>
        f1 <- index fields 1 ;;
        let '(minor, err) := strconv.Atoi f1 in
        match err with
        | Some err => ret (Some (fmt_Errorf_w "Failed to parse %q: %w" [f1] err))
        | None =>
            let dev := unix.Mkdev (uint32_of major) (uint32_of minor) in
            let mode := Z.lor unix.S_IFBLK 420 in  (* S_IFBLK|0644 *)
            err <- host_call (Mknod (getDevFile v) mode (int64_of dev))
                     (fun h => unix_Mknod h (getDevFile v) mode (int64_of dev)) ;;
            match err with
            | Some err =>
                ret (Some (fmt_Errorf_w "Failed to create block device %q: %w"
                             [getDevFile v] err))
            | None => ret None
            end
        end
    end
  else ret None.

Definition mountImage : M (option error) :=
  v <- this ;;
  if negb (String.eqb (loopDevice v) "") then ret None
  else
    ' (stdout, err) <- lxd_run "losetup" ["-P"; "-f"; "--show"; imageFile v] ;;
    match err with
    | Some err =>
        ret (Some (fmt_Errorf_w "Failed to setup loop device: %w" [] err))
    | None =>
        assign_loopDevice (strings.TrimSpace stdout) ;;;
        v <- this ;;
        ' (out, err) <- lxd_run "lsblk"
             ["--raw"; "--output"; "MAJ:MIN"; "--noheadings"; loopDevice v] ;;
        match err with
        | Some err =>
            ret (Some (fmt_Errorf_w "Failed to list block devices: %w" [] err))
        | None =>
            let deviceNumbers := strings.Split out LF in
            err <- mountImage_node getUEFIDevFile 1 deviceNumbers ;;
            match err with
            | Some err => ret (Some err)
            | None =>
                err <- mountImage_node getRootfsDevFile 2 deviceNumbers ;;
                match err with
                | Some err => ret (Some err)
                | None => ret None
                end
            end
        end
    end.

(** The body of the two [if lxd.PathExists(...)] blocks of [umountImage],
    for [getUEFIDevFile] and for [getRootfsDevFile]. *)
Definition umountImage_remove (getDevFile : vm -> string)
  : M (option error) :=
  v <- this ;;
  present <- path_exists (getDevFile v) ;;
  if present then
    err <- host_call (Remove (getDevFile v)) (fun h => os_Remove h (getDevFile v)) ;;
    match err with
    | Some err =>
        ret (Some (fmt_Errorf_w "Failed to remove file %q: %w" [getDevFile v] err))
    | None => ret None
    end
  else ret None.

Definition umountImage : M (option error) :=
  v <- this ;;
  gone <- (if String.eqb (loopDevice v) "" then ret true
           else present <- path_exists (loopDevice v) ;; ret (negb present)) ;;
  if (gone : bool) then ret None
  else
    err <- shared_run "losetup" ["-d"; loopDevice v] ;;
    match err with
    | Some err =>
        ret (Some (fmt_Errorf_w "Failed to detach loop device: %w" [] err))
    | None =>
        err <- umountImage_remove getUEFIDevFile ;;
        match err with
        | Some err => ret (Some err)
        | None =>
            err <- umountImage_remove getRootfsDevFile ;;
            match err with
            | Some err => ret (Some err)
            | None => assign_loopDevice "" ;;; ret None
            end
        end
    end.

Definition createRootFS : M (option error) :=
  v <- this ;;
  if String.eqb (loopDevice v) "" then
    ret (Some ErrNotMounted)
  else if String.eqb (rootFS v) "btrfs" then
    err <- shared_run "mkfs.btrfs" ["-f"; "-L"; "rootfs"; getRootfsDevFile v] ;;
    match err with
    | Some err =>
        ret (Some (fmt_Errorf_w "Failed to create btrfs filesystem: %w" [] err))
    | None =>
        err <- shared_run "mount" [getRootfsDevFile v; rootfsDir v] ;;
        match err with
        | Some err =>
            ret (Some (fmt_Errorf_w "Failed to mount %q at %q: %w"
                         [getRootfsDevFile v; rootfsDir v] err))
        | None =>
            defer (shared_run "umount" [rootfsDir v])
              (shared_run "btrfs"
                 ["subvolume"; "create"; fmt_Sprintf_s (rootfsDir v) "/@"])
        end
    end
  else if String.eqb (rootFS v) "ext4" then
    shared_run "mkfs.ext4"
      ["-F"; "-b"; "4096"; "-i 8192"; "-m"; "0"; "-L"; "rootfs";
       "-E"; "resize=536870912"; getRootfsDevFile v]
  else ret None.

Definition createUEFIFS : M (option error) :=
  v <- this ;;
  if String.eqb (loopDevice v) "" then
    ret (Some ErrNotMounted)
  else
    shared_run "mkfs.vfat" ["-F"; "32"; "-n"; "UEFI"; getUEFIDevFile v].

Definition getRootfsPartitionUUID : M (string * option error) :=
  v <- this ;;
  if String.eqb (loopDevice v) "" then
    ret ("", Some ErrNotMounted)
  else
    ' (stdout, err) <- lxd_run "blkid"
         ["-s"; "PARTUUID"; "-o"; "value"; getRootfsDevFile v] ;;
    match err with
    | Some err => ret ("", Some err)
    | None => ret (strings.TrimSpace stdout, None)
    end.

Definition getUEFIPartitionUUID : M (string * option error) :=
  v <- this ;;
  if String.eqb (loopDevice v) "" then
    ret ("", Some ErrNotMounted)
  else
    ' (stdout, err) <- lxd_run "blkid"
         ["-s"; "PARTUUID"; "-o"; "value"; getUEFIDevFile v] ;;
    match err with
    | Some err => ret ("", Some err)
    | None => ret (strings.TrimSpace stdout, None)
    end.

Definition mountRootPartition : M (option error) :=
  v <- this ;;
  if String.eqb (loopDevice v) "" then
    ret (Some ErrNotMounted)
  else if String.eqb (rootFS v) "btrfs" then
    shared_run "mount"
      [getRootfsDevFile v; rootfsDir v; "-o"; "defaults,subvol=/@"]
  else if String.eqb (rootFS v) "ext4" then
    shared_run "mount" [getRootfsDevFile v; rootfsDir v]
  else ret None.

Definition mountUEFIPartition : M (option error) :=
  v <- this ;;
  if String.eqb (loopDevice v) "" then
    ret (Some ErrNotMounted)
  else
    let mountpoint := filepath.Join [rootfsDir v; "boot"; "efi"] in
    err <- host_call (MkdirAll mountpoint 493)  (* 0755 *)
             (fun h => os_MkdirAll h mountpoint 493) ;;
    match err with
    | Some err =>
        ret (Some (fmt_Errorf_w "Failed to create directory %q: %w"
                     [mountpoint] err))
    | None => shared_run "mount" [getUEFIDevFile v; mountpoint]
    end.

End VM.

(** ** Sequences of method calls *)

(** The methods of [vm] that act on the host. *)
Inductive method : Type :=
| CreateEmptyDiskImage
| CreatePartitions
| MountImage
| UmountImage
| CreateRootFS
| CreateUEFIFS
| MountRootPartition
| MountUEFIPartition
| GetRootfsPartitionUUID
| GetUEFIPartitionUUID.

Section Calls.

Context {H : Type} `{Host H}.

(** The receiver and the world a call leaves, whatever it returned. *)
Definition after {A} (m : @M H A) (v : vm) (w : @world H)
  : vm * @world H :=
  let '(_, v', w') := m v w in (v', w').

Definition invoke (m : method) : vm -> @world H -> vm * @world H :=
  match m with
  | CreateEmptyDiskImage => after createEmptyDiskImage
  | CreatePartitions => after createPartitions
  | MountImage => after mountImage
  | UmountImage => after umountImage
  | CreateRootFS => after createRootFS
  | CreateUEFIFS => after createUEFIFS
  | MountRootPartition => after mountRootPartition
  | MountUEFIPartition => after mountUEFIPartition
  | GetRootfsPartitionUUID => after getRootfsPartitionUUID
  | GetUEFIPartitionUUID => after getUEFIPartitionUUID
  end.

Fixpoint invoke_all (ms : list method) (v : vm) (w : @world H)
  : vm * @world H :=
  match ms with
  | [] => (v, w)
  | m :: rest => let '(v', w') := invoke m v w in invoke_all rest v' w'
  end.

End Calls.

Definition mutates_loopDevice (m : method) : bool :=
  match m with
  | MountImage | UmountImage => true
  | _ => false
  end.


(** ** A scripted host

    A host for running the methods on concrete inputs: the paths that
    exist, what each command prints and returns, and whether [mknod] and
    [remove] fail. *)
Record script : Type := Script {
  paths : list string;
  run : string -> list string -> string * option error;
  mknod_err : option error;
  remove_err : option error
}.

Definition has_path (s : script) (p : string) : bool :=
  existsb (String.eqb p) (paths s).

Definition add_path (s : script) (p : string) : script :=
  {| paths := p :: paths s; run := run s;
     mknod_err := mknod_err s; remove_err := remove_err s |}.

Definition drop_path (s : script) (p : string) : script :=
  {| paths := filter (fun q => negb (String.eqb q p)) (paths s); run := run s;
     mknod_err := mknod_err s; remove_err := remove_err s |}.

#[export] Instance script_Host : Host script := {
  lxd_RunCommand s name args := (run s name args, s);
  shared_RunCommand s name args := (snd (run s name args), s);
  lxd_PathExists s p := has_path s p;
  unix_Mknod s p _ _ :=
    match mknod_err s with
    | Some e => (Some e, s)
    | None => (None, add_path s p)
    end;
  os_Remove s p :=
    match remove_err s with
    | Some e => (Some e, s)
    | None => (None, drop_path s p)
    end;
  os_Create s p := (None, add_path s p);
  File_Chmod s _ _ := (None, s);
  File_Truncate s _ _ := (None, s);
  File_Close s _ := (None, s);
  os_MkdirAll s p _ := (None, add_path s p)
}.

Definition exit1 : error := errors_New "exit status 1".

(** Tools that print a loop device for [losetup] and [listing] for
    [lsblk]; the commands named in [failing] exit with status 1. *)
Definition tools (listing : string) (failing : list string)
  (name : string) (args : list string) : string * option error :=
  if lxd_StringInSlice name failing then ("", Some exit1)
  else if String.eqb name "losetup" then ("/dev/loop0" ++ LF, None)
  else if String.eqb name "lsblk" then (listing, None)
  else if String.eqb name "blkid" then ("0f3a-11" ++ LF, None)
  else ("", None).

Definition listing3 : string :=
  "7:0" ++ LF ++ "259:1" ++ LF ++ "259:2" ++ LF.

Definition start (s : script) : @world script := {| host := s; log := [] |}.

Definition detached_vm : vm :=
  {| imageFile := "/tmp/disk.img"; loopDevice := ""; rootFS := "btrfs";
     rootfsDir := "/tmp/rootfs"; size := 4294967296 |}.

Definition attached_vm : vm := with_loopDevice detached_vm "/dev/loop0".

Unset Implicit Arguments.

(* ===================================================================== *)
(** ** The Go library functions on the inputs [vm.go] gives them *)
(* ===================================================================== *)

Example split_lines :
  strings.Split listing3 LF = ["7:0"; "259:1"; "259:2"; ""].
Proof. reflexivity. Qed.

Example split_empty : strings.Split "" LF = [""].
Proof. reflexivity. Qed.

Example split_no_colon : strings.Split "259" ":" = ["259"].
Proof. reflexivity. Qed.

Example trim_loop : strings.TrimSpace (" /dev/loop0" ++ LF) = "/dev/loop0".
Proof. reflexivity. Qed.

Example atoi_259 : strconv.Atoi "259" = (259%Z, None).
Proof. reflexivity. Qed.

Example atoi_neg : strconv.Atoi "-12" = ((-12)%Z, None).
Proof. reflexivity. Qed.

Example atoi_empty :
  strconv.Atoi "" = (0%Z, Some (strconv_NumError "Atoi" "" strconv_ErrSyntax)).
Proof. reflexivity. Qed.

Example atoi_big :
  strconv.Atoi "9223372036854775808"
  = ((2 ^ 63 - 1)%Z,
     Some (strconv_NumError "Atoi" "9223372036854775808" strconv_ErrRange)).
Proof. reflexivity. Qed.

Example mkdev_259_1 : unix.Mkdev 259 1 = 66305%Z.
Proof. reflexivity. Qed.

Example join_efi :
  filepath.Join ["/tmp/rootfs"; "boot"; "efi"] = "/tmp/rootfs/boot/efi".
Proof. reflexivity. Qed.

Example join_clean :
  filepath.Join [""; "a//b/../c/."; "boot"; "efi"] = "a/c/boot/efi".
Proof. reflexivity. Qed.

(** [trim_left] runs to the end: each rune stripped is at least one byte
    long, so the length of the input bounds the number of rounds, and what
    is returned starts with no white space. *)
Lemma strip_prefix_length p l l' :
  strings.strip_prefix p l = Some l' ->
  List.length l = (List.length p + List.length l')%nat.
Proof.
  revert l. induction p as [|a p IH]; intros l; cbn.
  - intros E. now injection E as <-.
  - destruct l as [|b l]; [discriminate|].
    destruct (Ascii.eqb a b); [|discriminate].
    intros E. cbn. now rewrite (IH _ E).
Qed.

Lemma strip_any_shorter runes l l' :
  Forall (fun r => r <> []) runes ->
  strings.strip_any runes l = Some l' ->
  (List.length l' < List.length l)%nat.
Proof.
  induction 1 as [|r runes Hr _ IH]; cbn; [discriminate|].
  destruct (strings.strip_prefix r l) as [l1|] eqn:E; [|exact IH].
  intros E'. injection E' as <-. apply strip_prefix_length in E.
  destruct r; [congruence|]. cbn in E. lia.
Qed.

Lemma trim_runes_done runes n l :
  Forall (fun r => r <> []) runes ->
  (List.length l <= n)%nat ->
  strings.strip_any runes (strings.trim_runes runes n l) = None.
Proof.
  intros Hrunes. revert l. induction n as [|n IH]; intros l Hn; cbn.
  - destruct l; [|cbn in Hn; lia].
    clear Hn. induction Hrunes as [|r runes Hr _ IHr]; cbn; [reflexivity|].
    destruct r; [congruence|]. exact IHr.
  - destruct (strings.strip_any runes l) as [l'|] eqn:E; [|exact E].
    apply IH. pose proof (strip_any_shorter _ _ _ Hrunes E). lia.
Qed.

Lemma trim_left_done l :
  strings.strip_any strings.space_runes (strings.trim_left l) = None.
Proof.
  apply trim_runes_done; [|apply Nat.le_refl].
  unfold strings.space_runes. cbn. repeat constructor; discriminate.
Qed.

(** A split on a non-empty separator always has a first piece, so
    [fields[0]] never panics. *)
Lemma split_from_nonempty sep skip piece s :
  strings.split_from sep skip piece s <> [].
Proof.
  revert skip piece.
  induction s as [|c s IH]; intros skip piece; cbn [strings.split_from].
  - discriminate.
  - destruct skip as [|k]; [|apply IH].
    destruct (String.prefix sep (String c s)); [discriminate | apply IH].
Qed.

(* ===================================================================== *)
(** ** Device file names and [newVM] *)
(* ===================================================================== *)

Lemma eqb_empty_false (s : string) : s <> "" -> String.eqb s "" = false.
Proof. intros Hs. now apply String.eqb_neq. Qed.

(** C8. When the loop device path is non-empty, [getRootfsDevFile] is that
    path followed by [p2] and [getUEFIDevFile] the same path followed by
    [p1]; when it is empty, both are the empty string. *)
Theorem dev_files_suffix (v : vm) :
  (loopDevice v <> "" ->
   getRootfsDevFile v = loopDevice v ++ "p2" /\
   getUEFIDevFile v = loopDevice v ++ "p1") /\
  (loopDevice v = "" -> getRootfsDevFile v = "" /\ getUEFIDevFile v = "").
Proof.
  unfold getRootfsDevFile, getUEFIDevFile, fmt_Sprintf_s. split.
  - intros Hdev. rewrite (eqb_empty_false _ Hdev). split; reflexivity.
  - intros ->. split; reflexivity.
Qed.

Lemma dev_files_suffix_witness :
  (getRootfsDevFile attached_vm = "/dev/loop0p2" /\
   getUEFIDevFile attached_vm = "/dev/loop0p1") /\
  (getRootfsDevFile detached_vm = "" /\ getUEFIDevFile detached_vm = "").
Proof.
  split.
  - apply (proj1 (dev_files_suffix attached_vm)). discriminate.
  - apply (proj2 (dev_files_suffix detached_vm)). reflexivity.
Defined.

Lemma StringInSlice_supported (fs : string) :
  lxd_StringInSlice fs ["btrfs"; "ext4"] = true <-> fs = "btrfs" \/ fs = "ext4".
Proof.
  cbn [lxd_StringInSlice].
  destruct (String.eqb_spec "btrfs" fs) as [E1|N1].
  - split; auto.
  - destruct (String.eqb_spec "ext4" fs) as [E2|N2].
    + split; auto.
    + split; [discriminate|]. intros [E|E]; congruence.
Qed.

(** C9. [newVM] rejects every filesystem kind other than the empty one,
    [ext4] and [btrfs] with the error "Unsupported fs"; otherwise it returns
    a vm with the given image path and directory, no loop device, the kind
    given ([ext4] for the empty one) and the size given (4294967296 for
    0).  [newVM] is a function of its arguments alone: it has no access to
    the host. *)
Theorem newVM_defaults (image dir fs : string) (sz : N) :
  (fs <> "" -> fs <> "ext4" -> fs <> "btrfs" ->
   newVM image dir fs sz = (None, Some (fmt_Errorf "Unsupported fs: %s" [fs]))) /\
  (fs = "" \/ fs = "ext4" \/ fs = "btrfs" ->
   exists v,
     newVM image dir fs sz = (Some v, None) /\
     imageFile v = image /\ rootfsDir v = dir /\ loopDevice v = "" /\
     (fs = "" -> rootFS v = "ext4") /\ (fs <> "" -> rootFS v = fs) /\
     (sz = 0%N -> size v = 4294967296%N) /\ (sz <> 0%N -> size v = sz)).
Proof.
  unfold newVM. split.
  - intros N0 N1 N2. rewrite (eqb_empty_false _ N0).
    destruct (lxd_StringInSlice fs ["btrfs"; "ext4"]) eqn:E; [|reflexivity].
    apply StringInSlice_supported in E. destruct E; congruence.
  - intros Hfs.
    set (fs' := if String.eqb fs "" then "ext4" else fs).
    assert (Hin : lxd_StringInSlice fs' ["btrfs"; "ext4"] = true).
    { apply StringInSlice_supported. subst fs'.
      destruct Hfs as [->|[->| ->]]; simpl; auto. }
    rewrite Hin. simpl. eexists. split; [reflexivity|]. simpl.
    repeat split.
    + intros ->. reflexivity.
    + intros N0. subst fs'. now rewrite (eqb_empty_false _ N0).
    + intros ->. reflexivity.
    + intros N0. apply N.eqb_neq in N0. now rewrite N0.
Qed.


Lemma newVM_defaults_witness :
  newVM "/tmp/disk.img" "/tmp/rootfs" "xfs" 0
  = (None, Some (fmt_Errorf "Unsupported fs: %s" ["xfs"])) /\
  exists v,
    newVM "/tmp/disk.img" "/tmp/rootfs" "" 0 = (Some v, None) /\
    rootFS v = "ext4" /\ size v = 4294967296%N.
Proof.
  split.
  - apply (proj1 (newVM_defaults "/tmp/disk.img" "/tmp/rootfs" "xfs" 0));
      discriminate.
  - destruct (proj2 (newVM_defaults "/tmp/disk.img" "/tmp/rootfs" "" 0)
                (or_introl eq_refl)) as (v & Hv & _ & _ & _ & Hfs & _ & Hsz & _).
    exists v. split; [exact Hv|]. split; [apply Hfs | apply Hsz]; reflexivity.
Defined.

(* ===================================================================== *)
(** ** Guards: calls that do nothing *)
(* ===================================================================== *)

Section Guards.

Context {H : Type} `{Host H}.

Lemma mountImage_attached (v : vm) (w : @world H) :
  loopDevice v <> "" -> mountImage v w = (Returned None, v, w).
Proof.
  intros Hdev. unfold mountImage, bind, this.
  now rewrite (eqb_empty_false _ Hdev).
Qed.

(** C1. On a vm whose loop device path is non-empty, [mountImage] returns
    [nil] at once: the vm, the host and the log are what they were, so no
    loop device is bound and no device node created.  Hence when a call of
    [mountImage] has left the attached vm [v] in the world [w], calling it
    a second time in a row ends in that same [v] and [w]. *)
Theorem mountImage_idempotent (v : vm) (w : @world H) :
  loopDevice v <> "" ->
  mountImage v w = (Returned None, v, w) /\
  (forall v0 w0,
      after mountImage v0 w0 = (v, w) ->
      after (mountImage ;;; mountImage) v0 w0 = (v, w)).
Proof.
  intros Hdev.
  pose proof (mountImage_attached v w Hdev) as Hnoop.
  split; [exact Hnoop|].
  intros v0 w0. unfold after, bind.
  destruct (mountImage v0 w0) as [[[r|msg] v1] w1]; intros E;
    injection E as -> ->.
  - now rewrite Hnoop.
  - reflexivity.
Qed.


(** C6. When the recorded loop device path is empty, or names a path that
    no longer exists on the host, [umountImage] returns [nil] and has
    made no call: the vm (its recorded path included), the host and the
    log are what they were. *)
Theorem umountImage_detached_noop (v : vm) (w : @world H) :
  loopDevice v = "" \/ lxd_PathExists (host w) (loopDevice v) = false ->
  umountImage v w = (Returned None, v, w).
Proof.
  intros Hgone. unfold umountImage, bind, this, path_exists, ret.
  destruct (String.eqb (loopDevice v) "") eqn:E; [reflexivity|].
  destruct Hgone as [Hdev | Hmissing].
  - rewrite Hdev in E. discriminate E.
  - now rewrite Hmissing.
Qed.

End Guards.

Lemma mountImage_idempotent_witness :
  let w0 := start (Script [] (tools listing3 []) None None) in
  let w1 := snd (after mountImage detached_vm w0) in
  mountImage attached_vm w1 = (Returned None, attached_vm, w1) /\
  after (mountImage ;;; mountImage) detached_vm w0 = (attached_vm, w1).
Proof.
  intros w0 w1.
  destruct (mountImage_idempotent attached_vm w1 ltac:(discriminate))
    as [Hnoop Htwice].
  split; [exact Hnoop|]. apply Htwice. reflexivity.
Defined.


Lemma umountImage_detached_noop_witness :
  umountImage attached_vm (start (Script [] (tools listing3 []) None None))
  = (Returned None, attached_vm,
     start (Script [] (tools listing3 []) None None)).
Proof.
  apply (umountImage_detached_noop attached_vm
           (start (Script [] (tools listing3 []) None None))).
  right. reflexivity.
Defined.

(* ===================================================================== *)
(** ** The btrfs root filesystem *)
(* ===================================================================== *)

Section Btrfs.

Context {H : Type} `{Host H}.


End Btrfs.


(* ===================================================================== *)
(** ** Detach *)
(* ===================================================================== *)

(** An entry of the log that records a successful removal of one of the two
    partition device files of [v]. *)
Definition removed_node (v : vm) (e : event) : Prop :=
  ev_err e = None /\
  (ev_call e = Remove (getUEFIDevFile v) \/ ev_call e = Remove (getRootfsDevFile v)).

Section Detach.

Context {H : Type} `{Host H}.

(** C7. On an attached vm, [umountImage] returns, and whenever it returns
    an error the vm is unchanged: the loop device path is still recorded.
    The path is cleared only on a run that returns [nil], in which
    [losetup -d] succeeded and every removal of a partition device file
    that was made succeeded. *)
Theorem umountImage_failure_keeps_path (v : vm) (w : @world H) :
  loopDevice v <> "" ->
  exists r v' w',
    umountImage v w = (Returned r, v', w') /\
    (r <> None -> v' = v) /\
    (v' = v \/
     (v' = with_loopDevice v "" /\ r = None /\
      exists removals,
        log w' = (log w ++ Event (Exec "losetup" ["-d"; loopDevice v]) None
                    :: removals)%list /\
        Forall (removed_node v) removals)).
Proof.
  intros Hdev.
  unfold umountImage, umountImage_remove, bind, this, path_exists,
    shared_run, host_call, assign_loopDevice, ret.
  rewrite (eqb_empty_false _ Hdev). cbn [negb host log].
  destruct (lxd_PathExists (host w) (loopDevice v)); cbn [negb].
  2:{ eexists _, _, _. split; [reflexivity|]. split; auto. }
  destruct (shared_RunCommand (host w) "losetup" _) as [[e1|] h1]; cbn [host log].
  { eexists _, _, _. split; [reflexivity|]. split; auto. }
  destruct (lxd_PathExists h1 (getUEFIDevFile v)); cbn [host log].
  - destruct (os_Remove h1 (getUEFIDevFile v)) as [[e2|] h2]; cbn [host log].
    { eexists _, _, _. split; [reflexivity|]. split; auto. }
    destruct (lxd_PathExists h2 (getRootfsDevFile v)); cbn [host log].
    + destruct (os_Remove h2 (getRootfsDevFile v)) as [[e3|] h3]; cbn [host log].
      { eexists _, _, _. split; [reflexivity|]. split; auto. }
      eexists _, _, _. split; [reflexivity|].
      split; [intros N; now contradiction N|]. right.
      split; [reflexivity|]. split; [reflexivity|].
      exists [Event (Remove (getUEFIDevFile v)) None;
              Event (Remove (getRootfsDevFile v)) None].
      split; [now rewrite <- !app_assoc|].
      repeat (apply Forall_cons; [split; cbn; auto|]); apply Forall_nil.
    + eexists _, _, _. split; [reflexivity|].
      split; [intros N; now contradiction N|]. right.
      split; [reflexivity|]. split; [reflexivity|].
      exists [Event (Remove (getUEFIDevFile v)) None].
      split; [now rewrite <- !app_assoc|].
      repeat (apply Forall_cons; [split; cbn; auto|]); apply Forall_nil.
  - destruct (lxd_PathExists h1 (getRootfsDevFile v)); cbn [host log].
    + destruct (os_Remove h1 (getRootfsDevFile v)) as [[e3|] h3]; cbn [host log].
      { eexists _, _, _. split; [reflexivity|]. split; auto. }
      eexists _, _, _. split; [reflexivity|].
      split; [intros N; now contradiction N|]. right.
      split; [reflexivity|]. split; [reflexivity|].
      exists [Event (Remove (getRootfsDevFile v)) None].
      split; [now rewrite <- !app_assoc|].
      repeat (apply Forall_cons; [split; cbn; auto|]); apply Forall_nil.
    + eexists _, _, _. split; [reflexivity|].
      split; [intros N; now contradiction N|]. right.
      split; [reflexivity|]. split; [reflexivity|].
      exists []. split; [reflexivity|]. constructor.
Qed.

End Detach.

Lemma umountImage_failure_keeps_path_witness :
  exists e w',
    umountImage attached_vm
      (start (Script ["/dev/loop0"; "/dev/loop0p1"] (tools listing3 [])
                None (Some exit1)))
    = (Returned (Some e), attached_vm, w').
Proof.
  destruct (umountImage_failure_keeps_path attached_vm
              (start (Script ["/dev/loop0"; "/dev/loop0p1"] (tools listing3 [])
                        None (Some exit1)))
              ltac:(discriminate))
    as (r & v' & w' & Hrun & Hkeep & _).
  vm_compute in Hrun. injection Hrun as Hr Hv Hw.
  eexists _, w'. rewrite <- Hr, <- Hv, <- Hw. reflexivity.
Defined.

(* ===================================================================== *)
(** ** Attach and device-node reconciliation *)
(* ===================================================================== *)

Definition is_Mknod (e : event) : Prop :=
  exists path mode dev, ev_call e = Mknod path mode dev.

Section Attach.

Context {H : Type} `{Host H}.

(** One reconciliation block leaves the vm alone and calls at most
    [mknod]. *)
Lemma mountImage_node_calls getDevFile line nums (v : vm) (w : @world H) :
  exists r w' nodes,
    mountImage_node getDevFile line nums v w = (r, v, w') /\
    log w' = (log w ++ nodes)%list /\ Forall is_Mknod nodes.
Proof.
  unfold mountImage_node, bind, this, path_exists, index, host_call, ret, panic.
  destruct (lxd_PathExists (host w) (getDevFile v)); cbn [negb].
  { eexists _, _, []. rewrite app_nil_r. repeat split. constructor. }
  destruct (nth_error nums line) as [entry|].
  2:{ eexists _, _, []. rewrite app_nil_r. repeat split. constructor. }
  destruct (nth_error (strings.Split entry ":") 0) as [f0|].
  2:{ eexists _, _, []. rewrite app_nil_r. repeat split. constructor. }
  destruct (strconv.Atoi f0) as [major [e|]].
  { eexists _, _, []. rewrite app_nil_r. repeat split. constructor. }
  destruct (nth_error (strings.Split entry ":") 1) as [f1|].
  2:{ eexists _, _, []. rewrite app_nil_r. repeat split. constructor. }
  destruct (strconv.Atoi f1) as [minor [e|]].
  { eexists _, _, []. rewrite app_nil_r. repeat split. constructor. }
  cbn [host log].
  destruct (unix_Mknod (host w) _ _ _) as [[e|] h1];
    eexists _, _, [_]; (split; [reflexivity|]); cbn [log];
    (split; [reflexivity|]); repeat constructor; now eexists _, _, _.
Qed.

(** C5, as the code has it.  On a detached vm, [mountImage] first calls
    [losetup].  If that call fails, [mountImage] returns the error
    "Failed to setup loop device", the vm is unchanged (its loop device
    path still empty) and no other call was made.  If it succeeds, the
    trimmed output is recorded as the loop device path and stays recorded
    however the rest of the step ends; the later calls are [lsblk] and
    then only [mknod], so the binding is not undone. *)
Theorem mountImage_failure_states (v : vm) (w : @world H) :
  loopDevice v = "" ->
  let losetup := Exec "losetup" ["-P"; "-f"; "--show"; imageFile v] in
  exists r v' w' bound later,
    mountImage v w = (r, v', w') /\
    log w' = (log w ++ Event losetup bound :: later)%list /\
    match bound with
    | Some e =>
        r = Returned (Some (fmt_Errorf_w "Failed to setup loop device: %w" [] e))
        /\ v' = v /\ later = []
    | None =>
        let stdout := fst (fst (lxd_RunCommand (host w) "losetup"
                                  ["-P"; "-f"; "--show"; imageFile v])) in
        v' = with_loopDevice v (strings.TrimSpace stdout) /\
        exists listed nodes,
          later = Event (Exec "lsblk" ["--raw"; "--output"; "MAJ:MIN";
                                       "--noheadings"; loopDevice v'])
                    listed :: nodes /\
          Forall is_Mknod nodes /\
          (forall e, listed = Some e ->
             r = Returned (Some (fmt_Errorf_w "Failed to list block devices: %w"
                                   [] e)) /\ nodes = [])
    end.
Proof.
  intros Hdev losetup.
  unfold mountImage. unfold bind at 1. unfold this at 1.
  rewrite Hdev. cbn [String.eqb negb].
  unfold bind at 1. unfold lxd_run at 1.
  destruct (lxd_RunCommand (host w) "losetup" _) as [[stdout [e|]] h1];
    cbn [fst].
  { eexists _, _, _, (Some e), []. split; [reflexivity|].
    cbn [log]. repeat split. }
  unfold bind at 1. unfold assign_loopDevice at 1.
  unfold bind at 1. unfold this at 1.
  unfold bind at 1. unfold lxd_run at 1. cbn [host log].
  set (v1 := with_loopDevice v (strings.TrimSpace stdout)).
  destruct (lxd_RunCommand h1 "lsblk" _) as [[out [e|]] h2].
  { eexists _, v1, _, None, _. split; [reflexivity|]. cbn [log].
    split; [now rewrite <- app_assoc|]. split; [reflexivity|].
    exists (Some e), []. split; [reflexivity|]. split; [constructor|].
    intros e' E. injection E as <-. split; reflexivity. }
  set (w2 := {| host := h2; log := _ |}).
  unfold bind at 1.
  destruct (mountImage_node_calls getUEFIDevFile 1 (strings.Split out LF) v1 w2)
    as (r1 & w3 & nodes1 & Hrun1 & Hlog1 & Hnodes1).
  rewrite Hrun1.
  destruct r1 as [[e|]|msg].
  - eexists _, v1, w3, None, _. split; [reflexivity|].
    rewrite Hlog1. subst w2. cbn [log]. split; [now rewrite <- !app_assoc|].
    split; [reflexivity|]. exists None, nodes1.
    repeat split; auto; discriminate.
  - unfold bind at 1.
    destruct (mountImage_node_calls getRootfsDevFile 2 (strings.Split out LF) v1 w3)
      as (r2 & w4 & nodes2 & Hrun2 & Hlog2 & Hnodes2).
    rewrite Hrun2.
    assert (Hlog : log w4
                   = (log w ++ Event losetup None
                        :: Event (Exec "lsblk" ["--raw"; "--output"; "MAJ:MIN";
                                                "--noheadings"; loopDevice v1])
                             None :: nodes1 ++ nodes2)%list).
    { rewrite Hlog2, Hlog1. subst w2. cbn [log].
      rewrite <- !app_assoc. reflexivity. }
    assert (Hnodes : Forall is_Mknod (nodes1 ++ nodes2)%list)
      by (apply Forall_app; split; assumption).
    destruct r2 as [[e|]|msg];
      (eexists _, v1, w4, None, _; split; [reflexivity|];
       split; [exact Hlog|]; split; [reflexivity|];
       exists None, (nodes1 ++ nodes2)%list;
       repeat split; auto; discriminate).
  - eexists _, v1, w3, None, _. split; [reflexivity|].
    rewrite Hlog1. subst w2. cbn [log]. split; [now rewrite <- !app_assoc|].
    split; [reflexivity|]. exists None, nodes1.
    repeat split; auto; discriminate.
Qed.

End Attach.

Lemma mountImage_failure_states_witness :
  exists r w',
    mountImage detached_vm (start (Script [] (tools listing3 ["lsblk"]) None None))
    = (r, attached_vm, w') /\
    mountImage detached_vm (start (Script [] (tools listing3 ["losetup"]) None None))
    = (Returned (Some (fmt_Errorf_w "Failed to setup loop device: %w" [] exit1)),
       detached_vm,
       {| host := Script [] (tools listing3 ["losetup"]) None None;
          log := [Event (Exec "losetup" ["-P"; "-f"; "--show"; "/tmp/disk.img"])
                    (Some exit1)] |}).
Proof.
  destruct (mountImage_failure_states detached_vm
              (start (Script [] (tools listing3 ["lsblk"]) None None)) eq_refl)
    as (r & v' & w' & bound & later & Hrun & _).
  exists r, w'. split.
  - rewrite Hrun. vm_compute in Hrun. injection Hrun as _ Hv _.
    now rewrite <- Hv.
  - reflexivity.
Defined.

(** C5, as stated, fails: [losetup] succeeds and [lsblk] fails.
    [mountImage] returns an error, yet the loop device path is recorded and
    the log holds the successful bind, which nothing has undone. *)
Lemma mountImage_error_leaves_binding :
  let w0 := start (Script [] (tools listing3 ["lsblk"]) None None) in
  loopDevice detached_vm = "" /\
  exists e v' w',
    mountImage detached_vm w0 = (Returned (Some e), v', w') /\
    loopDevice v' = "/dev/loop0" /\
    loopDevice v' <> "" /\
    log w' = [Event (Exec "losetup" ["-P"; "-f"; "--show"; "/tmp/disk.img"]) None;
              Event (Exec "lsblk" ["--raw"; "--output"; "MAJ:MIN";
                                   "--noheadings"; "/dev/loop0"]) (Some exit1)].
Proof.
  split; [reflexivity|].
  eexists _, _, _. split; [reflexivity|].
  split; [reflexivity|]. split; [discriminate | reflexivity].
Qed.

Section Panics.

Context {H : Type} `{Host H}.

(** A reconciliation block panics when the device file is missing and the
    listing has no line of the index it reads. *)
Lemma mountImage_node_short_listing getDevFile line nums (v : vm) (w : @world H) :
  lxd_PathExists (host w) (getDevFile v) = false ->
  nth_error nums line = None ->
  mountImage_node getDevFile line nums v w
  = (Panicked "runtime error: index out of range", v, w).
Proof.
  intros Hmissing Hshort.
  unfold mountImage_node, bind, this, path_exists, index, panic.
  now rewrite Hmissing, Hshort.
Qed.

(** A field that is no number is reported as an error. *)
Lemma mountImage_node_bad_major getDevFile line nums entry (v : vm) (w : @world H) :
  lxd_PathExists (host w) (getDevFile v) = false ->
  nth_error nums line = Some entry ->
  forall f0 rest n e,
    strings.Split entry ":" = f0 :: rest ->
    strconv.Atoi f0 = (n, Some e) ->
    mountImage_node getDevFile line nums v w
    = (Returned (Some (fmt_Errorf_w "Failed to parse %q: %w" [f0] e)), v, w).
Proof.
  intros Hmissing Hline f0 rest n e Hsplit Hatoi.
  unfold mountImage_node, bind, this, path_exists, index, ret.
  rewrite Hmissing, Hline, Hsplit. cbn [negb nth_error].
  now rewrite Hatoi.
Qed.

End Panics.

(** C4 on the code.  With the partition device files missing, [mountImage]
    panics with "index out of range" when [lsblk] prints nothing (the
    listing has one line, [deviceNumbers[1]] is read) and when the line of
    a partition has no colon ([fields[1]] is read); it returns no error
    there.  The loop device stays bound. *)
Theorem mountImage_panics_on_listing :
  (exists w',
      mountImage detached_vm (start (Script [] (tools "" []) None None))
      = (Panicked "runtime error: index out of range", attached_vm, w')) /\
  (exists w',
      mountImage detached_vm
        (start (Script [] (tools ("7:0" ++ LF ++ "259" ++ LF ++ "259:2" ++ LF) [])
                  None None))
      = (Panicked "runtime error: index out of range", attached_vm, w')) /\
  (exists w',
      mountImage detached_vm
        (start (Script ["/dev/loop0p1"] (tools ("7:0" ++ LF) []) None None))
      = (Panicked "runtime error: index out of range", attached_vm, w')).
Proof.
  repeat split; eexists; vm_compute; reflexivity.
Qed.

(* ===================================================================== *)
(** ** What the methods leave of the vm *)
(* ===================================================================== *)

(** The fields fixed by [newVM]. *)
Definition same_config (v v' : vm) : Prop :=
  imageFile v' = imageFile v /\ rootfsDir v' = rootfsDir v /\
  rootFS v' = rootFS v /\ size v' = size v.

Lemma same_config_refl v : same_config v v.
Proof. repeat split. Qed.

Lemma same_config_trans v1 v2 v3 :
  same_config v1 v2 -> same_config v2 v3 -> same_config v1 v3.
Proof. unfold same_config. intuition congruence. Qed.

Section Preservation.

Context {H : Type} `{Host H}.

(** A relation on the receiver that every step of a method respects. *)
Variable R : vm -> vm -> Prop.
Hypothesis R_refl : forall v, R v v.
Hypothesis R_trans : forall v1 v2 v3, R v1 v2 -> R v2 v3 -> R v1 v3.

Definition preserves {A} (m : @M H A) : Prop :=
  forall v w, R v (fst (after m v w)).

Lemma preserves_ret {A} (a : A) : preserves (ret a).
Proof. intros v w. apply R_refl. Qed.

Lemma preserves_panic {A} msg : preserves (@panic H A msg).
Proof. intros v w. apply R_refl. Qed.

Lemma preserves_this : preserves this.
Proof. intros v w. apply R_refl. Qed.

Lemma preserves_path_exists p : preserves (path_exists p).
Proof. intros v w. apply R_refl. Qed.

Lemma preserves_host_call c f : preserves (host_call c f).
Proof.
  intros v w. unfold after, host_call. destruct (f (host w)). apply R_refl.
Qed.

Lemma preserves_shared_run name args : preserves (shared_run name args).
Proof. apply preserves_host_call. Qed.

Lemma preserves_lxd_run name args : preserves (lxd_run name args).
Proof.
  intros v w. unfold after, lxd_run.
  destruct (lxd_RunCommand (host w) name args) as [[stdout err] h].
  apply R_refl.
Qed.

Lemma preserves_index {A} (s : list A) i : preserves (index s i).
Proof.
  unfold index. destruct (nth_error s i);
    [apply preserves_ret | apply preserves_panic].
Qed.

Lemma preserves_bind {A B} (m : @M H A) (k : A -> @M H B) :
  preserves m -> (forall a, preserves (k a)) -> preserves (bind m k).
Proof.
  intros Hm Hk v w. specialize (Hm v w). unfold after, bind in *.
  destruct (m v w) as [[[a|msg] v1] w1]; cbn [fst] in *.
  - specialize (Hk a v1 w1). unfold after in Hk.
    destruct (k a v1 w1) as [[r v2] w2]. cbn [fst] in *. eauto.
  - exact Hm.
Qed.

Lemma preserves_defer {A B} (d : @M H B) (body : @M H A) :
  preserves d -> preserves body -> preserves (defer d body).
Proof.
  intros Hd Hbody v w. specialize (Hbody v w). unfold after, defer in *.
  destruct (body v w) as [[r v1] w1]. cbn [fst] in *.
  specialize (Hd v1 w1). unfold after in Hd.
  destruct (d v1 w1) as [[r' v2] w2]. cbn [fst] in *. eauto.
Qed.

Hypothesis R_assign : forall v dev, R v (with_loopDevice v dev).

Lemma preserves_assign dev : preserves (assign_loopDevice dev).
Proof. intros v w. apply R_assign. Qed.

End Preservation.

(** Walk through the body of a method, one statement at a time. *)
Ltac preserved :=
  repeat first
    [ assumption
    | apply preserves_ret; assumption
    | apply preserves_this; assumption
    | apply preserves_panic; assumption
    | apply preserves_path_exists; assumption
    | apply preserves_shared_run; assumption
    | apply preserves_lxd_run; assumption
    | apply preserves_host_call; assumption
    | apply preserves_index; assumption
    | apply preserves_assign; assumption
    | apply preserves_defer; try assumption
    | apply preserves_bind; try assumption
    | match goal with
      | |- forall _, preserves _ _ => intros ?
      | |- preserves _ (match ?x with _ => _ end) => destruct x
      end ].

Section Config.

Context {H : Type} `{Host H}.

Variable R : vm -> vm -> Prop.
Hypothesis R_refl : forall v, R v v.
Hypothesis R_trans : forall v1 v2 v3, R v1 v2 -> R v2 v3 -> R v1 v3.

Lemma createPartitions_range_preserves args :
  preserves R (createPartitions_range (H := H) args).
Proof.
  induction args as [|cmd rest IH]; cbn [createPartitions_range]; preserved.
Qed.

(** The methods that never assign to the receiver. *)
Lemma readers_preserve :
  preserves R (createEmptyDiskImage (H := H)) /\
  preserves R (createPartitions (H := H)) /\
  preserves R (createRootFS (H := H)) /\
  preserves R (createUEFIFS (H := H)) /\
  preserves R (mountRootPartition (H := H)) /\
  preserves R (mountUEFIPartition (H := H)) /\
  preserves R (getRootfsPartitionUUID (H := H)) /\
  preserves R (getUEFIPartitionUUID (H := H)).
Proof.
  repeat split.
  - unfold createEmptyDiskImage. preserved.
  - apply createPartitions_range_preserves.
  - unfold createRootFS. preserved.
  - unfold createUEFIFS. preserved.
  - unfold mountRootPartition. preserved.
  - unfold mountUEFIPartition. preserved.
  - unfold getRootfsPartitionUUID. preserved.
  - unfold getUEFIPartitionUUID. preserved.
Qed.

Hypothesis R_assign : forall v dev, R v (with_loopDevice v dev).

(** [mountImage] and [umountImage] assign to [loopDevice] only. *)
Lemma writers_preserve :
  preserves R (mountImage (H := H)) /\ preserves R (umountImage (H := H)).
Proof.
  split.
  - unfold mountImage, mountImage_node. preserved.
  - unfold umountImage, umountImage_remove. preserved.
Qed.

End Config.

Section Invariant.

Context {H : Type} `{Host H}.

Lemma with_loopDevice_same_config v dev : same_config v (with_loopDevice v dev).
Proof. repeat split. Qed.

Lemma invoke_same_config m (v : vm) (w : @world H) :
  same_config v (fst (invoke m v w)).
Proof.
  pose proof (readers_preserve (H := H) same_config same_config_refl
                same_config_trans) as (R1 & R2 & R3 & R4 & R5 & R6 & R7 & R8).
  pose proof (writers_preserve (H := H) same_config same_config_refl
                same_config_trans with_loopDevice_same_config) as (W1 & W2).
  destruct m; cbn [invoke];
    first [apply R1 | apply R2 | apply R3 | apply R4 | apply R5 | apply R6
          | apply R7 | apply R8 | apply W1 | apply W2].
Qed.

Lemma invoke_reader m (v : vm) (w : @world H) :
  mutates_loopDevice m = false -> fst (invoke m v w) = v.
Proof.
  pose proof (readers_preserve (H := H) (fun v v' => v' = v)
                (fun v => eq_refl)
                (fun v1 v2 v3 E1 E2 => eq_trans E2 E1))
    as (R1 & R2 & R3 & R4 & R5 & R6 & R7 & R8).
  destruct m; cbn [invoke mutates_loopDevice]; intros Hm;
    first [discriminate Hm | apply R1 | apply R2 | apply R3 | apply R4
          | apply R5 | apply R6 | apply R7 | apply R8].
Qed.

Lemma invoke_all_same_config ms (v : vm) (w : @world H) :
  same_config v (fst (invoke_all ms v w)).
Proof.
  revert v w. induction ms as [|m rest IH]; intros v w; cbn [invoke_all].
  - apply same_config_refl.
  - pose proof (invoke_same_config m v w) as Hm.
    destruct (invoke m v w) as [v1 w1]. cbn [fst] in Hm.
    eapply same_config_trans; [exact Hm | apply IH].
Qed.

Lemma invoke_all_readers ms (v : vm) (w : @world H) :
  existsb mutates_loopDevice ms = false -> fst (invoke_all ms v w) = v.
Proof.
  revert v w. induction ms as [|m rest IH]; intros v w; cbn [invoke_all existsb].
  - reflexivity.
  - intros Hms. apply orb_false_iff in Hms as [Hm Hrest].
    pose proof (invoke_reader m v w Hm) as Hv.
    destruct (invoke m v w) as [v1 w1]. cbn [fst] in Hv. subst v1.
    now apply IH.
Qed.

(** C10. A vm returned by [newVM] has kind [btrfs] or [ext4] and a size
    above 0.  After any sequence of calls of the ten methods on it, in any
    world, the image file, the build root, the kind and the size are what
    [newVM] stored; if the sequence holds neither [mountImage] nor
    [umountImage], the whole vm, its loop device path included, is what
    it was. *)
Theorem vm_config_invariant image dir fs sz (v0 : vm) :
  newVM image dir fs sz = (Some v0, None) ->
  ((rootFS v0 = "btrfs" \/ rootFS v0 = "ext4") /\ (0 < size v0)%N) /\
  forall (ms : list method) (w : @world H),
    let v := fst (invoke_all ms v0 w) in
    (imageFile v = image /\ rootfsDir v = dir /\
     rootFS v = rootFS v0 /\ size v = size v0) /\
    (existsb mutates_loopDevice ms = false -> v = v0).
Proof.
  intros Hnew.
  assert (Hv0 : imageFile v0 = image /\ rootfsDir v0 = dir /\
                (rootFS v0 = "btrfs" \/ rootFS v0 = "ext4") /\
                (0 < size v0)%N).
  { unfold newVM in Hnew.
    destruct (lxd_StringInSlice _ _) eqn:Hin in Hnew; [|discriminate Hnew].
    cbn [negb] in Hnew. injection Hnew as <-. cbn.
    apply StringInSlice_supported in Hin.
    repeat split; auto.
    destruct (N.eqb_spec sz 0); lia. }
  destruct Hv0 as (Himg & Hdir & Hfs & Hsz).
  split; [split; assumption|].
  intros ms w v. subst v.
  destruct (invoke_all_same_config ms v0 w) as (E1 & E2 & E3 & E4).
  split.
  - repeat split; congruence.
  - apply invoke_all_readers.
Qed.

End Invariant.

Lemma vm_config_invariant_witness :
  let ms := [CreateEmptyDiskImage; CreatePartitions; MountImage; CreateRootFS;
             CreateUEFIFS; MountRootPartition; MountUEFIPartition;
             GetRootfsPartitionUUID; GetUEFIPartitionUUID; UmountImage] in
  let w := start (Script [] (tools listing3 []) None None) in
  same_config detached_vm (fst (invoke_all ms detached_vm w)) /\
  fst (invoke_all [CreateRootFS; GetUEFIPartitionUUID] detached_vm w) = detached_vm.
Proof.
  intros ms w.
  destruct (vm_config_invariant (H := script) "/tmp/disk.img" "/tmp/rootfs"
              "btrfs" 0 detached_vm eq_refl) as (_ & Hinv).
  split.
  - destruct (Hinv ms w) as ((E1 & E2 & E3 & E4) & _).
    repeat split; assumption.
  - apply (Hinv [CreateRootFS; GetUEFIPartitionUUID] w). reflexivity.
Defined.

(* ===================================================================== *)
(** ** Which methods can panic *)
(* ===================================================================== *)

(** A line of the [lsblk] listing that both index expressions of a
    reconciliation block can read: the line exists and has at least two
    colon-separated fields. *)
Definition line_ok (deviceNumbers : list string) (line : nat) : bool :=
  match nth_error deviceNumbers line with
  | Some entry =>
      match strings.Split entry ":" with
      | _ :: _ :: _ => true
      | _ => false
      end
  | None => false
  end.

Definition listing_ok (out : string) : bool :=
  let deviceNumbers := strings.Split out LF in
  line_ok deviceNumbers 1 && line_ok deviceNumbers 2.

Section Returns.

Context {H : Type} `{Host H}.

(** The method returns on every receiver and in every world. *)
Definition returns {A} (m : @M H A) : Prop :=
  forall v w, exists a v' w', m v w = (Returned a, v', w').

Lemma returns_ret {A} (a : A) : returns (ret a).
Proof. intros v w. now eexists _, _, _. Qed.

Lemma returns_this : returns this.
Proof. intros v w. now eexists _, _, _. Qed.

Lemma returns_assign dev : returns (assign_loopDevice dev).
Proof. intros v w. now eexists _, _, _. Qed.

Lemma returns_path_exists p : returns (path_exists p).
Proof. intros v w. now eexists _, _, _. Qed.

Lemma returns_host_call c f : returns (host_call c f).
Proof.
  intros v w. unfold host_call. destruct (f (host w)). now eexists _, _, _.
Qed.

Lemma returns_shared_run name args : returns (shared_run name args).
Proof. apply returns_host_call. Qed.

Lemma returns_lxd_run name args : returns (lxd_run name args).
Proof.
  intros v w. unfold lxd_run.
  destruct (lxd_RunCommand (host w) name args) as [[stdout err] h].
  now eexists _, _, _.
Qed.

Lemma returns_bind {A B} (m : @M H A) (k : A -> @M H B) :
  returns m -> (forall a, returns (k a)) -> returns (bind m k).
Proof.
  intros Hm Hk v w. destruct (Hm v w) as (a & v1 & w1 & E).
  unfold bind. rewrite E. apply Hk.
Qed.

Lemma returns_defer {A B} (d : @M H B) (body : @M H A) :
  returns body -> returns (defer d body).
Proof.
  intros Hbody v w. destruct (Hbody v w) as (a & v1 & w1 & E).
  unfold defer. rewrite E. destruct (d v1 w1) as [[r v2] w2].
  now eexists _, _, _.
Qed.

End Returns.

Ltac returning :=
  repeat first
    [ assumption
    | apply returns_ret
    | apply returns_this
    | apply returns_assign
    | apply returns_path_exists
    | apply returns_shared_run
    | apply returns_lxd_run
    | apply returns_host_call
    | apply returns_defer
    | apply returns_bind
    | match goal with
      | |- forall _, returns _ => intros ?
      | |- returns (match ?x with _ => _ end) => destruct x
      end ].

Section NoPanic.

Context {H : Type} `{Host H}.

Lemma createPartitions_range_returns args :
  returns (createPartitions_range (H := H) args).
Proof.
  induction args as [|cmd rest IH]; cbn [createPartitions_range]; returning.
Qed.

(** X1. Whatever the host answers, the nine methods other than
    [mountImage] return: none of them ends in a run-time panic. *)
Theorem only_mountImage_can_panic :
  returns (createEmptyDiskImage (H := H)) /\
  returns (createPartitions (H := H)) /\
  returns (umountImage (H := H)) /\
  returns (createRootFS (H := H)) /\
  returns (createUEFIFS (H := H)) /\
  returns (mountRootPartition (H := H)) /\
  returns (mountUEFIPartition (H := H)) /\
  returns (getRootfsPartitionUUID (H := H)) /\
  returns (getUEFIPartitionUUID (H := H)).
Proof.
  repeat split.
  - unfold createEmptyDiskImage. returning.
  - apply createPartitions_range_returns.
  - unfold umountImage, umountImage_remove. returning.
  - unfold createRootFS. returning.
  - unfold createUEFIFS. returning.
  - unfold mountRootPartition. returning.
  - unfold mountUEFIPartition. returning.
  - unfold getRootfsPartitionUUID. returning.
  - unfold getUEFIPartitionUUID. returning.
Qed.

Lemma mountImage_node_returns getDevFile line nums :
  line_ok nums line = true ->
  returns (mountImage_node (H := H) getDevFile line nums).
Proof.
  unfold line_ok. intros Hok v w.
  unfold mountImage_node, bind, this, path_exists, index, host_call, ret.
  destruct (lxd_PathExists (host w) (getDevFile v)); cbn [negb];
    [now eexists _, _, _|].
  destruct (nth_error nums line) as [entry|]; [|discriminate Hok].
  destruct (strings.Split entry ":") as [|f0 [|f1 rest]]; try discriminate Hok.
  cbn [nth_error].
  destruct (strconv.Atoi f0) as [major [e|]]; [now eexists _, _, _|].
  destruct (strconv.Atoi f1) as [minor [e|]]; [now eexists _, _, _|].
  destruct (unix_Mknod (host w) _ _ _) as [[e|] h1]; now eexists _, _, _.
Qed.

(** X2. [mountImage] panics only on a malformed listing: on a host whose
    [lsblk] always prints a listing in which lines 1 and 2 exist and have
    two colon-separated fields, [mountImage] returns on every vm and in
    every world. *)
Theorem mountImage_returns_on_listing :
  (forall h args, listing_ok (fst (fst (lxd_RunCommand h "lsblk" args))) = true) ->
  returns (mountImage (H := H)).
Proof.
  intros Hlisting. unfold mountImage.
  apply returns_bind; [apply returns_this | intros v].
  destruct (negb (String.eqb (loopDevice v) "")); [apply returns_ret|].
  apply returns_bind; [apply returns_lxd_run | intros [stdout [e|]]];
    [apply returns_ret|].
  apply returns_bind; [apply returns_assign | intros _].
  apply returns_bind; [apply returns_this | intros v1].
  intros v2 w2. unfold bind at 1. unfold lxd_run at 1.
  pose proof (Hlisting (host w2) ["--raw"; "--output"; "MAJ:MIN";
                                  "--noheadings"; loopDevice v1]) as Hok.
  destruct (lxd_RunCommand (host w2) "lsblk" _) as [[out [e|]] h3];
    [now eexists _, _, _|].
  cbn [fst] in Hok. unfold listing_ok in Hok.
  apply andb_true_iff in Hok as [Hok1 Hok2].
  cbn beta iota.
  match goal with
  | |- context [bind (mountImage_node getUEFIDevFile 1 _) _ v2 ?w] =>
      set (w3 := w)
  end.
  destruct (mountImage_node_returns getUEFIDevFile 1 _ Hok1 v2 w3)
    as (r1 & v4 & w4 & E1).
  unfold bind at 1. rewrite E1.
  destruct r1 as [e|]; [now eexists _, _, _|].
  destruct (mountImage_node_returns getRootfsDevFile 2 _ Hok2 v4 w4)
    as (r2 & v5 & w5 & E2).
  unfold bind at 1. rewrite E2.
  destruct r2 as [e|]; now eexists _, _, _.
Qed.

End NoPanic.

(** A host on which [losetup] and [lsblk] always answer as on a machine
    with the two partitions scanned; its state is the set of paths that
    exist. *)
Record scanned_host : Type := Scanned { scanned_paths : list string }.

#[export] Instance scanned_Host : Host scanned_host := {
  lxd_RunCommand s name args := (tools listing3 [] name args, s);
  shared_RunCommand s name args := (None, s);
  lxd_PathExists s p := existsb (String.eqb p) (scanned_paths s);
  unix_Mknod s p _ _ := (None, Scanned (p :: scanned_paths s));
  os_Remove s p :=
    (None, Scanned (filter (fun q => negb (String.eqb q p)) (scanned_paths s)));
  os_Create s p := (None, Scanned (p :: scanned_paths s));
  File_Chmod s _ _ := (None, s);
  File_Truncate s _ _ := (None, s);
  File_Close s _ := (None, s);
  os_MkdirAll s p _ := (None, Scanned (p :: scanned_paths s))
}.

Lemma mountImage_returns_on_listing_witness :
  exists a v' w',
    mountImage detached_vm {| host := Scanned []; log := [] |}
    = (Returned a, v', w').
Proof.
  apply (mountImage_returns_on_listing (H := scanned_host)).
  intros h args. reflexivity.
Defined.

(* ===================================================================== *)
(** ** What a successful attach has done *)
(* ===================================================================== *)

(** The mode [mountImage] gives to [mknod]: a block device, [rw-r--r--]. *)
Definition node_mode : Z := Z.lor unix.S_IFBLK 420.

(** What one reconciliation block that fell through has done, between the
    worlds [w] and [w']: the device file was there and nothing was called;
    or it was missing, the two fields of its line of the listing were
    numbers, and one [mknod] of that file, with the device number made of
    them, succeeded. *)
Definition reconciled {H : Type} `{Host H} (devFile : string) (line : nat)
  (deviceNumbers : list string) (w w' : @world H) : Prop :=
  (lxd_PathExists (host w) devFile = true /\ w' = w)
  \/ (lxd_PathExists (host w) devFile = false /\
      exists entry f0 f1 rest major minor,
        nth_error deviceNumbers line = Some entry /\
        strings.Split entry ":" = f0 :: f1 :: rest /\
        strconv.Atoi f0 = (major, None) /\
        strconv.Atoi f1 = (minor, None) /\
        log w' = (log w
                  ++ [Event (Mknod devFile node_mode
                               (int64_of (unix.Mkdev (uint32_of major)
                                            (uint32_of minor))))
                        None])%list).

Section Attached.

Context {H : Type} `{Host H}.

Lemma mountImage_node_success getDevFile line nums (v v' : vm) (w w' : @world H) :
  mountImage_node getDevFile line nums v w = (Returned None, v', w') ->
  v' = v /\ reconciled (getDevFile v) line nums w w'.
Proof.
  unfold mountImage_node, bind, this, path_exists, index, host_call, ret, panic,
    reconciled.
  destruct (lxd_PathExists (host w) (getDevFile v)) eqn:Hpresent; cbn [negb].
  { intros E. injection E as <- <-. split; [reflexivity|]. left. now split. }
  destruct (nth_error nums line) as [entry|] eqn:Hline; [|discriminate].
  destruct (strings.Split entry ":") as [|f0 [|f1 rest]] eqn:Hfields;
    cbn [nth_error]; try discriminate.
  - destruct (strconv.Atoi f0) as [major [e|]]; discriminate.
  - destruct (strconv.Atoi f0) as [major [e|]] eqn:E0; [discriminate|].
    destruct (strconv.Atoi f1) as [minor [e|]] eqn:E1; [discriminate|].
    destruct (unix_Mknod (host w) _ _ _) as [[e|] h1]; [discriminate|].
    intros E. injection E as <- <-. split; [reflexivity|]. right.
    split; [reflexivity|].
    exists entry, f0, f1, rest, major, minor.
    repeat split; try assumption; reflexivity.
Qed.

(** X3. When the two partition device files exist once the loop device is
    bound and listed, [mountImage] on a detached vm returns [nil] after
    exactly two calls, [losetup] and [lsblk], and records the trimmed path:
    the listing is not read, whatever [lsblk] printed. *)
Theorem mountImage_nodes_present (v : vm) (w : @world H) stdout h1 out h2 :
  loopDevice v = "" ->
  lxd_RunCommand (host w) "losetup" ["-P"; "-f"; "--show"; imageFile v]
  = ((stdout, None), h1) ->
  let v1 := with_loopDevice v (strings.TrimSpace stdout) in
  let lsblk := ["--raw"; "--output"; "MAJ:MIN"; "--noheadings"; loopDevice v1] in
  lxd_RunCommand h1 "lsblk" lsblk = ((out, None), h2) ->
  lxd_PathExists h2 (getUEFIDevFile v1) = true ->
  lxd_PathExists h2 (getRootfsDevFile v1) = true ->
  mountImage v w
  = (Returned None, v1,
     {| host := h2;
        log := log w ++ [Event (Exec "losetup" ["-P"; "-f"; "--show"; imageFile v])
                           None;
                         Event (Exec "lsblk" lsblk) None] |}).
Proof.
  intros Hdev Hbind v1 lsblk Hlist Hp1 Hp2.
  unfold mountImage, mountImage_node, bind, this, lxd_run, assign_loopDevice,
    path_exists, ret.
  rewrite Hdev. cbn [String.eqb negb]. rewrite Hbind. cbn [host log].
  fold v1. fold lsblk. rewrite Hlist. cbn [host log].
  rewrite Hp1. cbn [negb host log]. rewrite Hp2. cbn [negb].
  now rewrite <- app_assoc.
Qed.

(** X4. When [mountImage] returns [nil] on a detached vm, [losetup] and
    [lsblk] succeeded, the vm records the trimmed output of [losetup], and
    each of the two partition device files, first [p1] with line 1 of the
    listing and then [p2] with line 2, either existed or was created by a
    successful [mknod] with mode [S_IFBLK|0644] and the device number its
    line gives. *)
Theorem mountImage_success_reconciled (v v' : vm) (w w' : @world H) :
  loopDevice v = "" ->
  mountImage v w = (Returned None, v', w') ->
  exists stdout h1 out h2 w3,
    lxd_RunCommand (host w) "losetup" ["-P"; "-f"; "--show"; imageFile v]
    = ((stdout, None), h1) /\
    v' = with_loopDevice v (strings.TrimSpace stdout) /\
    let lsblk := ["--raw"; "--output"; "MAJ:MIN"; "--noheadings"; loopDevice v'] in
    lxd_RunCommand h1 "lsblk" lsblk = ((out, None), h2) /\
    let w2 := {| host := h2;
                 log := log w
                        ++ [Event (Exec "losetup" ["-P"; "-f"; "--show"; imageFile v])
                              None;
                            Event (Exec "lsblk" lsblk) None] |} in
    reconciled (getUEFIDevFile v') 1 (strings.Split out LF) w2 w3 /\
    reconciled (getRootfsDevFile v') 2 (strings.Split out LF) w3 w'.
Proof.
  intros Hdev. unfold mountImage.
  unfold bind at 1. unfold this at 1. rewrite Hdev. cbn [String.eqb negb].
  unfold bind at 1. unfold lxd_run at 1.
  destruct (lxd_RunCommand (host w) "losetup" _) as [[stdout [e|]] h1];
    [discriminate|].
  unfold bind at 1. unfold assign_loopDevice at 1.
  unfold bind at 1. unfold this at 1.
  unfold bind at 1. unfold lxd_run at 1. cbn [host log].
  set (v1 := with_loopDevice v (strings.TrimSpace stdout)).
  destruct (lxd_RunCommand h1 "lsblk" _) as [[out [e|]] h2] eqn:Hlist;
    [discriminate|].
  unfold bind at 1.
  destruct (mountImage_node getUEFIDevFile 1 _ v1 _) as [[[[e|]|msg] v3] w3]
    eqn:E1; try discriminate.
  apply mountImage_node_success in E1 as [-> R1].
  unfold bind at 1.
  destruct (mountImage_node getRootfsDevFile 2 _ v1 w3) as [[[[e|]|msg] v4] w4]
    eqn:E2; try discriminate.
  apply mountImage_node_success in E2 as [-> R2].
  intros E. injection E as <- <-.
  exists stdout, h1, out, h2, w3.
  split; [reflexivity|]. split; [reflexivity|]. split; [exact Hlist|].
  rewrite <- app_assoc in R1. split; [exact R1 | exact R2].
Qed.

Lemma with_loopDevice_reset (v v1 : vm) :
  same_config v v1 -> loopDevice v = "" -> with_loopDevice v1 "" = v.
Proof.
  destruct v, v1. unfold same_config, with_loopDevice. cbn.
  intros (-> & -> & -> & ->) ->. reflexivity.
Qed.

Lemma umountImage_success (v v' : vm) (w w' : @world H) :
  umountImage v w = (Returned None, v', w') ->
  loopDevice v <> "" ->
  lxd_PathExists (host w) (loopDevice v) = true ->
  v' = with_loopDevice v "".
Proof.
  intros Hrun Hdev Hpath. revert Hrun.
  unfold umountImage, umountImage_remove, bind, this, path_exists,
    shared_run, host_call, assign_loopDevice, ret.
  rewrite (eqb_empty_false _ Hdev), Hpath. cbn [negb host log].
  destruct (shared_RunCommand (host w) "losetup" _) as [[e1|] h1];
    [discriminate|]. cbn [host log].
  destruct (lxd_PathExists h1 (getUEFIDevFile v)); cbn [host log].
  - destruct (os_Remove h1 (getUEFIDevFile v)) as [[e2|] h2]; [discriminate|].
    cbn [host log].
    destruct (lxd_PathExists h2 (getRootfsDevFile v)); cbn [host log].
    + destruct (os_Remove h2 (getRootfsDevFile v)) as [[e3|] h3];
        [discriminate|].
      intros E. now injection E as <- _.
    + intros E. now injection E as <- _.
  - destruct (lxd_PathExists h1 (getRootfsDevFile v)); cbn [host log].
    + destruct (os_Remove h1 (getRootfsDevFile v)) as [[e3|] h3];
        [discriminate|].
      intros E. now injection E as <- _.
    + intros E. now injection E as <- _.
Qed.

(** X5. Attach and detach restore the vm: when [mountImage] returns [nil] on
    a detached vm, the loop device it recorded exists on the host, and
    [umountImage] then returns [nil], the vm is again the one before
    [mountImage]. *)
Theorem mount_umount_round_trip (v v1 v2 : vm) (w w1 w2 : @world H) :
  loopDevice v = "" ->
  mountImage v w = (Returned None, v1, w1) ->
  lxd_PathExists (host w1) (loopDevice v1) = true ->
  umountImage v1 w1 = (Returned None, v2, w2) ->
  v2 = v.
Proof.
  intros Hdev Hmount Hpath Humount.
  assert (Hcfg : same_config v v1).
  { pose proof (proj1 (writers_preserve (H := H) same_config same_config_refl
                         same_config_trans
                         (fun v dev => conj eq_refl
                            (conj eq_refl (conj eq_refl eq_refl)))) v w) as P.
    unfold after in P. rewrite Hmount in P. exact P. }
  destruct (String.eqb_spec (loopDevice v1) "") as [Hempty|Hset].
  - assert (Hnoop : umountImage v1 w1 = (Returned None, v1, w1)).
    { unfold umountImage, bind, this, ret. now rewrite Hempty. }
    rewrite Hnoop in Humount. injection Humount as <- _.
    rewrite <- (with_loopDevice_reset v v1 Hcfg Hdev).
    destruct v1. cbn in Hempty. subst. reflexivity.
  - rewrite (umountImage_success _ _ _ _ Humount Hset Hpath).
    now apply with_loopDevice_reset.
Qed.

End Attached.

Lemma mountImage_nodes_present_witness :
  mountImage detached_vm
    (start (Script ["/dev/loop0p1"; "/dev/loop0p2"] (tools "" []) None None))
  = (Returned None, attached_vm,
     {| host := Script ["/dev/loop0p1"; "/dev/loop0p2"] (tools "" []) None None;
        log := [Event (Exec "losetup" ["-P"; "-f"; "--show"; "/tmp/disk.img"]) None;
                Event (Exec "lsblk" ["--raw"; "--output"; "MAJ:MIN";
                                     "--noheadings"; "/dev/loop0"]) None] |}).
Proof.
  exact (mountImage_nodes_present detached_vm
           (start (Script ["/dev/loop0p1"; "/dev/loop0p2"] (tools "" []) None None))
           ("/dev/loop0" ++ LF)
           (Script ["/dev/loop0p1"; "/dev/loop0p2"] (tools "" []) None None)
           ""
           (Script ["/dev/loop0p1"; "/dev/loop0p2"] (tools "" []) None None)
           eq_refl eq_refl eq_refl eq_refl eq_refl).
Defined.

Lemma mountImage_success_reconciled_witness :
  exists w3 w',
    reconciled "/dev/loop0p1" 1 (strings.Split listing3 LF)
      {| host := Script [] (tools listing3 []) None None;
         log := [Event (Exec "losetup" ["-P"; "-f"; "--show"; "/tmp/disk.img"]) None;
                 Event (Exec "lsblk" ["--raw"; "--output"; "MAJ:MIN";
                                      "--noheadings"; "/dev/loop0"]) None] |}
      w3 /\
    reconciled "/dev/loop0p2" 2 (strings.Split listing3 LF) w3 w'.
Proof.
  pose (w0 := start (Script [] (tools listing3 []) None None)).
  pose (res := mountImage detached_vm w0).
  assert (Hrun : mountImage detached_vm w0
                 = (Returned None, snd (fst res), snd res))
    by (vm_compute; reflexivity).
  destruct (mountImage_success_reconciled detached_vm (snd (fst res)) w0
              (snd res) eq_refl Hrun)
    as (stdout & h1 & out & h2 & w3 & Hbind & _ & Hlist & R1 & R2).
  cbn in Hbind. injection Hbind as <- <-.
  cbn in Hlist. injection Hlist as <- <-.
  exists w3, (snd res). split; [exact R1 | exact R2].
Defined.

Lemma mount_umount_round_trip_witness :
  let w0 := start (Script ["/dev/loop0"] (tools listing3 []) None None) in
  fst (invoke_all [MountImage; UmountImage] detached_vm w0) = detached_vm.
Proof.
  intros w0.
  pose (res1 := mountImage detached_vm w0).
  pose (res2 := umountImage (snd (fst res1)) (snd res1)).
  assert (Hmount : mountImage detached_vm w0
                   = (Returned None, snd (fst res1), snd res1))
    by (vm_compute; reflexivity).
  assert (Humount : umountImage (snd (fst res1)) (snd res1)
                    = (Returned None, snd (fst res2), snd res2))
    by (vm_compute; reflexivity).
  assert (Hpath : lxd_PathExists (host (snd res1)) (loopDevice (snd (fst res1)))
                  = true)
    by (vm_compute; reflexivity).
  pose proof (mount_umount_round_trip detached_vm (snd (fst res1))
                (snd (fst res2)) w0 (snd res1) (snd res2) eq_refl Hmount
                Hpath Humount) as Hback.
  vm_compute in Hback |- *. exact Hback.
Defined.

(* ===================================================================== *)
(** ** Calls made and errors returned *)
(* ===================================================================== *)

(** The error of the first call of a stretch of the log that failed. *)
Fixpoint first_error (calls : list event) : option error :=
  match calls with
  | [] => None
  | e :: rest =>
      match ev_err e with
      | Some err => Some err
      | None => first_error rest
      end
  end.

(** No call follows a call that failed. *)
Fixpoint stops_at_error (calls : list event) : bool :=
  match calls with
  | [] => true
  | e :: rest =>
      match ev_err e with
      | Some _ => match rest with [] => true | _ :: _ => false end
      | None => stops_at_error rest
      end
  end.

(** A method that made [calls] and returned [r] reports its calls: it
    stopped at the first call that failed and returned the error of that
    call, bare or wrapped by [fmt.Errorf]; it returned [nil] when no call
    failed. *)
Definition reports (calls : list event) (r : option error) : Prop :=
  stops_at_error calls = true /\
  match first_error calls with
  | None => r = None
  | Some e => r = Some e \/ exists format args, r = Some (fmt_Errorf_w format args e)
  end.

Lemma int64_of_small z : (0 <= z < 2 ^ 63)%Z -> int64_of z = z.
Proof.
  intros Hz. unfold int64_of.
  rewrite Z.mod_small; lia.
Qed.

Lemma int64_of_large z :
  (2 ^ 63 <= z < 2 ^ 64)%Z -> int64_of z = (z - 2 ^ 64)%Z.
Proof.
  intros Hz. unfold int64_of.
  replace (z + 2 ^ 63)%Z with ((z - 2 ^ 63) + 1 * 2 ^ 64)%Z by lia.
  rewrite Z.mod_add by lia. rewrite Z.mod_small; lia.
Qed.

Section Calls_made.

Context {H : Type} `{Host H}.

(** The three runs of calls of [createEmptyDiskImage]. *)
Lemma createEmptyDiskImage_shape (v : vm) (w : @world H) :
  let f := imageFile v in
  let truncate := Truncate f (int64_of (Z.of_N (size v))) in
  exists r w' calls,
    createEmptyDiskImage v w = (Returned r, v, w') /\
    log w' = (log w ++ calls)%list /\
    ((exists e,
         calls = [Event (Create f) (Some e)] /\
         r = Some (fmt_Errorf_w "Failed to open %s: %w" [f] e))
     \/ (exists e closed,
            calls = [Event (Create f) None; Event (Chmod f 384) (Some e);
                     Event (Close f) closed] /\
            r = Some (fmt_Errorf_w "Failed to chmod %s: %w" [f] e))
     \/ (exists truncated closed,
            calls = [Event (Create f) None; Event (Chmod f 384) None;
                     Event truncate truncated; Event (Close f) closed] /\
            r = match truncated with
                | Some e =>
                    Some (fmt_Errorf_w "Failed to create sparse file %s: %w" [f] e)
                | None => None
                end)).
Proof.
  intros f truncate. subst f truncate.
  unfold createEmptyDiskImage, bind, this, defer, host_call, ret.
  destruct (os_Create (host w) (imageFile v)) as [[e1|] h1]; cbn [host log].
  { eexists _, _, [_]. split; [reflexivity|]. split; [reflexivity|].
    left. now exists e1. }
  destruct (File_Chmod h1 (imageFile v) 384) as [[e2|] h2]; cbn [host log].
  { destruct (File_Close h2 (imageFile v)) as [closed h3].
    eexists _, _, [_; _; _]. split; [reflexivity|].
    split; [cbn [log]; now rewrite <- !app_assoc|].
    right. left. now exists e2, closed. }
  destruct (File_Truncate h2 (imageFile v) _) as [[e3|] h3]; cbn [host log];
    destruct (File_Close h3 (imageFile v)) as [closed h4];
    (eexists _, _, [_; _; _; _]; split; [reflexivity|];
     split; [cbn [log]; now rewrite <- !app_assoc|];
     right; right; eexists _, closed; split; reflexivity).
Qed.


(** X7. The length [createEmptyDiskImage] passes to [Truncate] is the size
    of the vm when that is below 2^63; for a size from 2^63 up to the end of
    [uint64] the conversion to [int64] wraps and the length is negative. *)
Theorem createEmptyDiskImage_truncate_length (v : vm) (w : @world H) :
  forall e path length,
    In e (skipn (List.length (log w))
            (log (snd (createEmptyDiskImage v w)))) ->
    ev_call e = Truncate path length ->
    path = imageFile v /\
    ((size v < 2 ^ 63)%N -> length = Z.of_N (size v)) /\
    ((2 ^ 63 <= size v < 2 ^ 64)%N ->
     length = (Z.of_N (size v) - 2 ^ 64)%Z /\ (length < 0)%Z).
Proof.
  intros e path length.
  destruct (createEmptyDiskImage_shape v w)
    as (r & w' & calls & Hrun & Hlog & Hshape).
  rewrite Hrun. cbn [snd]. rewrite Hlog.
  rewrite skipn_app, skipn_all, Nat.sub_diag. cbn [skipn app].
  intros Hin Hcall.
  assert (Hlen : path = imageFile v /\ length = int64_of (Z.of_N (size v))).
  { destruct Hshape as [(e1 & -> & _) | [(e1 & closed & -> & _)
                                        | (truncated & closed & -> & _)]];
      cbn in Hin;
      repeat (destruct Hin as [<-|Hin]; [cbn in Hcall; try discriminate Hcall|]);
      try contradiction.
    injection Hcall as <- <-. now split. }
  destruct Hlen as [-> ->]. split; [reflexivity|]. split.
  - intros Hsmall. apply int64_of_small. lia.
  - intros Hlarge. rewrite int64_of_large by lia. lia.
Qed.

End Calls_made.

Lemma createEmptyDiskImage_truncate_length_witness :
  let w0 := start (Script [] (tools listing3 []) None None) in
  In (Event (Truncate "/tmp/disk.img" 4294967296) None)
    (log (snd (createEmptyDiskImage detached_vm w0))) /\
  4294967296%Z = Z.of_N (size detached_vm).
Proof.
  intros w0. split; [vm_compute; tauto|].
  refine (proj1 (proj2 (createEmptyDiskImage_truncate_length detached_vm w0
                          (Event (Truncate "/tmp/disk.img" 4294967296) None)
                          "/tmp/disk.img" 4294967296%Z _ eq_refl)) _).
  - vm_compute. tauto.
  - reflexivity.
Defined.

(** The three [sgdisk] commands of [createPartitions] on the image file. *)
Definition partition_plan (v : vm) : list call :=
  map (fun cmd => Exec "sgdisk" (imageFile v :: cmd))
    [ ["--zap-all"];
      ["--new=1::+100M"; "-t 1:EF00"];
      ["--new=2::"; "-t 2:8300"] ].

Section Commands.

Context {H : Type} `{Host H}.

Lemma createPartitions_range_calls args (v : vm) (w : @world H) :
  exists r w' calls,
    createPartitions_range args v w = (Returned r, v, w') /\
    log w' = (log w ++ calls)%list /\
    map ev_call calls
    = firstn (List.length calls)
        (map (fun cmd => Exec "sgdisk" (imageFile v :: cmd)) args) /\
    (List.length calls <= List.length args)%nat /\
    stops_at_error calls = true /\
    (first_error calls = None ->
     r = None /\ List.length calls = List.length args) /\
    (forall e, first_error calls = Some e ->
       r = Some (fmt_Errorf_w "Failed to create partitions: %w" [] e)).
Proof.
  revert w. induction args as [|cmd rest IH]; intros w;
    cbn [createPartitions_range].
  - exists None, w, []. rewrite app_nil_r.
    repeat split; cbn; try lia; discriminate.
  - unfold bind at 1. unfold this at 1. unfold bind at 1.
    unfold shared_run at 1. unfold host_call at 1.
    destruct (shared_RunCommand (host w) "sgdisk" _) as [[e|] h1].
    + eexists _, _, [_]. split; [reflexivity|]. split; [reflexivity|].
      cbn. repeat split; try discriminate; try lia.
      intros e' E. now injection E as <-.
    + destruct (IH {| host := h1;
                      log := (log w ++ [Event (Exec "sgdisk" (imageFile v :: cmd))
                                          None])%list |})
        as (r & w' & calls & Hrun & Hlog & Hplan & Hlen & Hstop & Hok & Herr).
      exists r, w', (Event (Exec "sgdisk" (imageFile v :: cmd)) None :: calls).
      split; [exact Hrun|].
      split; [rewrite Hlog; cbn [log]; now rewrite <- app_assoc|].
      cbn. rewrite <- Hplan.
      repeat split; try assumption; try lia.
      * now apply Hok.
      * f_equal. now apply Hok.
Qed.

(** X8. [createPartitions] returns, leaves the vm alone, and runs the three
    [sgdisk] commands on the image file in order -- erase the table, create
    partition 1 of 100M with type EF00, create partition 2 with type 8300
    -- stopping at the first that fails.  It returns [nil] exactly when all
    three ran and succeeded, and otherwise the error of the failing
    command wrapped as "Failed to create partitions". *)
Theorem createPartitions_calls (v : vm) (w : @world H) :
  exists r w' calls,
    createPartitions v w = (Returned r, v, w') /\
    log w' = (log w ++ calls)%list /\
    map ev_call calls = firstn (List.length calls) (partition_plan v) /\
    stops_at_error calls = true /\
    match first_error calls with
    | None => r = None /\ List.length calls = 3%nat
    | Some e =>
        r = Some (fmt_Errorf_w "Failed to create partitions: %w" [] e)
    end.
Proof.
  destruct (createPartitions_range_calls
              [ ["--zap-all"]; ["--new=1::+100M"; "-t 1:EF00"];
                ["--new=2::"; "-t 2:8300"] ] v w)
    as (r & w' & calls & Hrun & Hlog & Hplan & Hlen & Hstop & Hok & Herr).
  exists r, w', calls. split; [exact Hrun|]. split; [exact Hlog|].
  split; [exact Hplan|]. split; [exact Hstop|].
  destruct (first_error calls) as [e|]; [now apply Herr | now apply Hok].
Qed.


(** X10. On an attached vm, [createUEFIFS], [mountRootPartition],
    [mountUEFIPartition] and, for a kind other than [btrfs],
    [createRootFS] return, leave the vm alone and report their calls: they
    stop at the first call that fails and return its error, bare or
    wrapped, and return [nil] when no call failed.  Each makes at most two
    calls. *)
Theorem attached_methods_report (v : vm) (w : @world H) :
  loopDevice v <> "" ->
  let reporting (m : @M H (option error)) :=
    exists r w' calls,
      m v w = (Returned r, v, w') /\
      log w' = (log w ++ calls)%list /\
      reports calls r /\ (List.length calls <= 2)%nat in
  reporting createUEFIFS /\
  reporting mountRootPartition /\
  reporting mountUEFIPartition /\
  (rootFS v <> "btrfs" -> reporting createRootFS).
Proof.
  intros Hdev reporting. subst reporting. cbv beta.
  assert (Hone : forall name args,
             exists r w' calls,
               shared_run name args v w = (Returned r, v, w') /\
               log w' = (log w ++ calls)%list /\
               reports calls r /\ (List.length calls <= 2)%nat).
  { intros name args. unfold shared_run, host_call.
    destruct (shared_RunCommand (host w) name args) as [r h1].
    eexists r, _, [_]. split; [reflexivity|]. split; [reflexivity|].
    split; [|cbn; lia].
    split; [now destruct r|]. cbn. destruct r; auto. }
  assert (Hnone : exists r w' calls,
             ret (H := H) (None : option error) v w = (Returned r, v, w') /\
             log w' = (log w ++ calls)%list /\
             reports calls r /\ (List.length calls <= 2)%nat).
  { exists None, w, []. rewrite app_nil_r. repeat split. cbn. lia. }
  repeat split.
  - unfold createUEFIFS, bind, this. rewrite (eqb_empty_false _ Hdev).
    apply Hone.
  - unfold mountRootPartition, bind, this. rewrite (eqb_empty_false _ Hdev).
    destruct (String.eqb (rootFS v) "btrfs"); [apply Hone|].
    destruct (String.eqb (rootFS v) "ext4"); [apply Hone | apply Hnone].
  - unfold mountUEFIPartition, bind, this, host_call, shared_run, ret.
    rewrite (eqb_empty_false _ Hdev). cbn [host log].
    destruct (os_MkdirAll (host w) _ 493) as [[e|] h1]; cbn [host log].
    + eexists _, _, [_]. split; [reflexivity|]. split; [reflexivity|].
      split; [|cbn; lia]. split; [reflexivity|]. right. now eexists _, _.
    + unfold host_call. cbn [host log].
      destruct (shared_RunCommand h1 "mount" _) as [r h2].
      eexists r, _, [_; _]. split; [reflexivity|].
      split; [cbn [log]; now rewrite <- app_assoc|].
      split; [|cbn; lia].
      split; [now destruct r|]. cbn. destruct r; auto.
  - intros Hkind. unfold createRootFS, bind, this.
    rewrite (eqb_empty_false _ Hdev).
    apply String.eqb_neq in Hkind. rewrite Hkind.
    destruct (String.eqb (rootFS v) "ext4"); [apply Hone | apply Hnone].
Qed.

End Commands.

Lemma attached_methods_report_witness :
  exists w',
    mountUEFIPartition attached_vm
      (start (Script [] (tools listing3 ["mount"]) None None))
    = (Returned (Some exit1), attached_vm, w').
Proof.
  destruct (attached_methods_report attached_vm
              (start (Script [] (tools listing3 ["mount"]) None None))
              ltac:(discriminate))
    as (_ & _ & (r & w' & calls & Hrun & _) & _).
  exists w'. rewrite Hrun. vm_compute in Hrun. injection Hrun as <- _.
  reflexivity.
Defined.

(* ===================================================================== *)
(** ** Device file names, again *)
(* ===================================================================== *)

Lemma list_ascii_of_string_app (s t : string) :
  list_ascii_of_string (s ++ t)
  = (list_ascii_of_string s ++ list_ascii_of_string t)%list.
Proof. induction s as [|c s IH]; cbn; [reflexivity | now rewrite IH]. Qed.

Lemma list_ascii_of_string_inj (s t : string) :
  list_ascii_of_string s = list_ascii_of_string t -> s = t.
Proof.
  intros E. rewrite <- (string_of_list_ascii_of_string s),
    <- (string_of_list_ascii_of_string t). now rewrite E.
Qed.

Lemma append_inv_tail (s s' t : string) : s ++ t = s' ++ t -> s = s'.
Proof.
  intros E. apply list_ascii_of_string_inj.
  apply (f_equal list_ascii_of_string) in E.
  rewrite !list_ascii_of_string_app in E. now apply app_inv_tail in E.
Qed.

Lemma append_inv_head (s t t' : string) : s ++ t = s ++ t' -> t = t'.
Proof.
  intros E. apply list_ascii_of_string_inj.
  apply (f_equal list_ascii_of_string) in E.
  rewrite !list_ascii_of_string_app in E. now apply app_inv_head in E.
Qed.

Lemma length_append (s t : string) :
  String.length (s ++ t) = (String.length s + String.length t)%nat.
Proof. induction s as [|c s IH]; cbn; [reflexivity | now rewrite IH]. Qed.

Lemma append_empty (s t : string) : s ++ t = "" -> s = "" /\ t = "".
Proof. destruct s; cbn; [now split | discriminate]. Qed.

(** X11. On an attached vm the loop device and its two partition device
    files are three different paths.  On any two vms, equal [p1] files, or
    equal [p2] files, mean equal loop device paths: the device files of
    different loop devices never coincide. *)
Theorem dev_files_distinct (v v' : vm) :
  (loopDevice v <> "" ->
   getUEFIDevFile v <> getRootfsDevFile v /\
   getUEFIDevFile v <> loopDevice v /\
   getRootfsDevFile v <> loopDevice v) /\
  (getUEFIDevFile v = getUEFIDevFile v' -> loopDevice v = loopDevice v') /\
  (getRootfsDevFile v = getRootfsDevFile v' -> loopDevice v = loopDevice v').
Proof.
  unfold getUEFIDevFile, getRootfsDevFile, fmt_Sprintf_s.
  split; [|split].
  - intros Hdev. rewrite (eqb_empty_false _ Hdev). repeat split.
    + intros E. apply append_inv_head in E. discriminate E.
    + intros E. apply (f_equal String.length) in E.
      rewrite length_append in E. cbn in E. lia.
    + intros E. apply (f_equal String.length) in E.
      rewrite length_append in E. cbn in E. lia.
  - destruct (String.eqb_spec (loopDevice v) "") as [E|N];
      destruct (String.eqb_spec (loopDevice v') "") as [E'|N'];
      intros Heq.
    + congruence.
    + symmetry in Heq. apply append_empty in Heq as [_ Hp]. discriminate Hp.
    + apply append_empty in Heq as [_ Hp]. discriminate Hp.
    + now apply append_inv_tail in Heq.
  - destruct (String.eqb_spec (loopDevice v) "") as [E|N];
      destruct (String.eqb_spec (loopDevice v') "") as [E'|N'];
      intros Heq.
    + congruence.
    + symmetry in Heq. apply append_empty in Heq as [_ Hp]. discriminate Hp.
    + apply append_empty in Heq as [_ Hp]. discriminate Hp.
    + now apply append_inv_tail in Heq.
Qed.

Lemma dev_files_distinct_witness :
  getUEFIDevFile attached_vm <> getRootfsDevFile attached_vm /\
  getUEFIDevFile attached_vm <> loopDevice attached_vm /\
  getRootfsDevFile attached_vm <> loopDevice attached_vm.
Proof.
  apply (proj1 (dev_files_distinct attached_vm attached_vm)). discriminate.
Defined.

(* ===================================================================== *)
(** ** [newVM] on what it returned *)
(* ===================================================================== *)

(** X12. The defaults of [newVM] are stable: given the fields of a vm it
    returned, [newVM] returns that vm again. *)
Theorem newVM_stable image dir fs sz (v : vm) :
  newVM image dir fs sz = (Some v, None) ->
  newVM (imageFile v) (rootfsDir v) (rootFS v) (size v) = (Some v, None).
Proof.
  unfold newVM at 1.
  destruct (lxd_StringInSlice _ _) eqn:Hin; [|discriminate].
  cbn [negb]. intros E. injection E as <-. cbn [imageFile rootfsDir rootFS size].
  unfold newVM.
  set (fs' := if String.eqb fs "" then "ext4" else fs) in *.
  assert (Hfs : String.eqb fs' "" = false).
  { apply StringInSlice_supported in Hin.
    destruct Hin as [-> | ->]; reflexivity. }
  rewrite Hfs, Hin. cbn [negb].
  set (sz' := if N.eqb sz 0 then 4294967296%N else sz).
  assert (Hsz : N.eqb sz' 0 = false).
  { subst sz'. destruct (N.eqb_spec sz 0); [reflexivity | now apply N.eqb_neq]. }
  now rewrite Hsz.
Qed.

Lemma newVM_stable_witness :
  exists v,
    newVM "/tmp/disk.img" "/tmp/rootfs" "" 0 = (Some v, None) /\
    newVM (imageFile v) (rootfsDir v) (rootFS v) (size v) = (Some v, None).
Proof.
  eexists. split; [reflexivity|].
  apply (newVM_stable "/tmp/disk.img" "/tmp/rootfs" "" 0). reflexivity.
Defined.

(* ===================================================================== *)
(** ** Methods on a vm built by [newVM] *)
(* ===================================================================== *)

(** The methods that do nothing on a detached vm. *)
Definition idle_when_detached (m : method) : bool :=
  match m with
  | UmountImage | CreateRootFS | CreateUEFIFS | MountRootPartition
  | MountUEFIPartition | GetRootfsPartitionUUID | GetUEFIPartitionUUID => true
  | CreateEmptyDiskImage | CreatePartitions | MountImage => false
  end.

Section Built.

Context {H : Type} `{Host H}.

Lemma invoke_idle m (v : vm) (w : @world H) :
  loopDevice v = "" -> idle_when_detached m = true -> invoke m v w = (v, w).
Proof.
  intros Hdev. destruct m; cbn [idle_when_detached invoke]; intros Hm;
    try discriminate Hm; unfold after.
  - unfold umountImage, bind, this, ret. now rewrite Hdev.
  - unfold createRootFS, bind, this, ret. now rewrite Hdev.
  - unfold createUEFIFS, bind, this, ret. now rewrite Hdev.
  - unfold mountRootPartition, bind, this, ret. now rewrite Hdev.
  - unfold mountUEFIPartition, bind, this, ret. now rewrite Hdev.
  - unfold getRootfsPartitionUUID, bind, this, ret. now rewrite Hdev.
  - unfold getUEFIPartitionUUID, bind, this, ret. now rewrite Hdev.
Qed.

(** X13. Until a loop device is bound nothing reaches the host: on a
    detached vm, any sequence of calls of [umountImage], [createRootFS],
    [createUEFIFS], [mountRootPartition], [mountUEFIPartition] and the two
    UUID lookups, in any order and number, leaves the vm, the host and the
    log exactly as they were. *)
Theorem detached_sequence_idle (ms : list method) (v : vm) (w : @world H) :
  loopDevice v = "" ->
  forallb idle_when_detached ms = true ->
  invoke_all ms v w = (v, w).
Proof.
  intros Hdev. induction ms as [|m rest IH]; cbn [forallb invoke_all];
    [reflexivity|].
  intros Hms. apply andb_true_iff in Hms as [Hm Hrest].
  rewrite (invoke_idle m v w Hdev Hm). now apply IH.
Qed.

(** X14. A vm built by [newVM] is never formatted or mounted silently: on
    such a vm, once attached, [createRootFS] first runs [mkfs.btrfs] or
    [mkfs.ext4], as its kind says, on the [p2] device file, and returns
    [nil] only if that command succeeded; [mountRootPartition] makes
    exactly one call, a [mount] of the [p2] device file at the build root,
    and returns what it returned.  The branch of the two [switch]
    statements that returns [nil] without a call is out of reach. *)
Theorem built_vm_formats image dir fs sz (v0 v : vm) (w : @world H) :
  newVM image dir fs sz = (Some v0, None) ->
  same_config v0 v ->
  loopDevice v <> "" ->
  (exists r w' first rest tool options,
      createRootFS v w = (Returned r, v, w') /\
      log w' = (log w ++ first :: rest)%list /\
      ev_call first = Exec tool (options ++ [getRootfsDevFile v])%list /\
      tool = "mkfs." ++ rootFS v /\
      (r = None -> ev_err first = None)) /\
  (exists r w' options,
      mountRootPartition v w = (Returned r, v, w') /\
      log w' = (log w ++ [Event (Exec "mount"
                                   (getRootfsDevFile v :: rootfsDir v :: options))
                            r])%list).
Proof.
  intros Hnew (_ & _ & Hkind & _) Hdev.
  assert (Hfs : rootFS v = "btrfs" \/ rootFS v = "ext4").
  { rewrite Hkind. unfold newVM in Hnew.
    destruct (lxd_StringInSlice _ _) eqn:Hin in Hnew; [|discriminate Hnew].
    cbn [negb] in Hnew. injection Hnew as <-. cbn.
    now apply StringInSlice_supported. }
  split.
  - unfold createRootFS, bind, this, defer, shared_run, host_call, ret.
    rewrite (eqb_empty_false _ Hdev).
    destruct Hfs as [Hfs | Hfs]; rewrite Hfs; cbn [String.eqb Ascii.eqb Bool.eqb].
    + cbn [host log].
      destruct (shared_RunCommand (host w) "mkfs.btrfs" _) as [[e1|] h1].
      { eexists _, _, _, [], "mkfs.btrfs", ["-f"; "-L"; "rootfs"].
        split; [reflexivity|]. split; [reflexivity|].
        repeat split. discriminate. }
      cbn [host log].
      destruct (shared_RunCommand h1 "mount" _) as [[e2|] h2].
      { eexists _, _, _, [_], "mkfs.btrfs", ["-f"; "-L"; "rootfs"].
        split; [reflexivity|].
        split; [cbn [log]; now rewrite <- app_assoc|]. repeat split. }
      cbn [host log].
      destruct (shared_RunCommand h2 "btrfs" _) as [sub h3]. cbn [host log].
      destruct (shared_RunCommand h3 "umount" _) as [um h4].
      eexists _, _, _, [_; _; _], "mkfs.btrfs", ["-f"; "-L"; "rootfs"].
      split; [reflexivity|].
      split; [cbn [log]; now rewrite <- !app_assoc|]. repeat split.
    + destruct (shared_RunCommand (host w) "mkfs.ext4" _) as [r h1].
      eexists r, _, _, [], "mkfs.ext4",
        ["-F"; "-b"; "4096"; "-i 8192"; "-m"; "0"; "-L"; "rootfs";
         "-E"; "resize=536870912"].
      split; [reflexivity|]. split; [reflexivity|]. repeat split.
      intros ->. reflexivity.
  - unfold mountRootPartition, bind, this, shared_run, host_call, ret.
    rewrite (eqb_empty_false _ Hdev).
    destruct Hfs as [Hfs | Hfs]; rewrite Hfs; cbn [String.eqb Ascii.eqb Bool.eqb].
    + destruct (shared_RunCommand (host w) "mount" _) as [r h1].
      now eexists r, _, ["-o"; "defaults,subvol=/@"].
    + destruct (shared_RunCommand (host w) "mount" _) as [r h1].
      now eexists r, _, [].
Qed.

End Built.

Lemma detached_sequence_idle_witness :
  let w0 := start (Script ["/dev/loop0"] (tools listing3 []) None None) in
  invoke_all [CreateRootFS; UmountImage; GetUEFIPartitionUUID; MountUEFIPartition]
    detached_vm w0
  = (detached_vm, w0).
Proof.
  intros w0.
  apply (detached_sequence_idle
           [CreateRootFS; UmountImage; GetUEFIPartitionUUID; MountUEFIPartition]
           detached_vm w0); reflexivity.
Defined.

Lemma built_vm_formats_witness :
  exists r w',
    mountRootPartition attached_vm
      (start (Script ["/dev/loop0"] (tools listing3 []) None None))
    = (Returned r, attached_vm, w') /\
    map ev_call (log w')
    = [Exec "mount" ["/dev/loop0p2"; "/tmp/rootfs"; "-o"; "defaults,subvol=/@"]].
Proof.
  destruct (built_vm_formats "/tmp/disk.img" "/tmp/rootfs" "btrfs" 0
              detached_vm attached_vm
              (start (Script ["/dev/loop0"] (tools listing3 []) None None))
              eq_refl (conj eq_refl (conj eq_refl (conj eq_refl eq_refl)))
              ltac:(discriminate))
    as (_ & r & w' & options & Hrun & Hlog).
  exists r, w'. split; [exact Hrun|].
  vm_compute in Hrun. injection Hrun as _ <-. reflexivity.
Defined.

(* ===================================================================== *)
(** ** Trimmed output *)
(* ===================================================================== *)

Lemma strip_prefix_app p l l' :
  strings.strip_prefix p l = Some l' -> l = (p ++ l')%list.
Proof.
  revert l. induction p as [|a p IH]; intros l; cbn.
  - intros E. now injection E as <-.
  - destruct l as [|b l]; [discriminate|].
    destruct (Ascii.eqb_spec a b) as [->|]; [|discriminate].
    intros E. now rewrite (IH _ E).
Qed.

Lemma strip_prefix_extend p a b x :
  strings.strip_prefix p a = Some x ->
  strings.strip_prefix p (a ++ b)%list = Some (x ++ b)%list.
Proof.
  revert a. induction p as [|c p IH]; intros a; cbn.
  - intros E. now injection E as <-.
  - destruct a as [|d a]; [discriminate|]. cbn.
    destruct (Ascii.eqb c d); [apply IH | discriminate].
Qed.

Lemma strip_any_extend runes a b :
  strings.strip_any runes (a ++ b)%list = None ->
  strings.strip_any runes a = None.
Proof.
  induction runes as [|r runes IH]; cbn; [reflexivity|].
  destruct (strings.strip_prefix r a) as [x|] eqn:E.
  - now rewrite (strip_prefix_extend _ _ b _ E).
  - destruct (strings.strip_prefix r (a ++ b)%list); [discriminate | exact IH].
Qed.

Lemma strip_any_app runes l l' :
  strings.strip_any runes l = Some l' -> exists r, l = (r ++ l')%list.
Proof.
  induction runes as [|r runes IH]; cbn; [discriminate|].
  destruct (strings.strip_prefix r l) as [x|] eqn:E; [|exact IH].
  intros E'. injection E' as <-. exists r. now apply strip_prefix_app.
Qed.

(** What [trim_runes] returns is the end of its input. *)
Lemma trim_runes_suffix runes n l :
  exists front, l = (front ++ strings.trim_runes runes n l)%list.
Proof.
  revert l. induction n as [|n IH]; intros l; cbn; [now exists []|].
  destruct (strings.strip_any runes l) as [l'|] eqn:E; [|now exists []].
  destruct (strip_any_app _ _ _ E) as (r & ->).
  destruct (IH l') as (front & Hfront).
  exists (r ++ front)%list. rewrite <- app_assoc. now rewrite <- Hfront.
Qed.

Lemma trim_runes_fixed runes n l :
  strings.strip_any runes l = None -> strings.trim_runes runes n l = l.
Proof. intros E. destruct n; cbn; [reflexivity | now rewrite E]. Qed.

Lemma space_runes_nonempty : Forall (fun r => r <> []) strings.space_runes.
Proof. unfold strings.space_runes. cbn. repeat constructor; discriminate. Qed.

Lemma rev_space_runes_nonempty :
  Forall (fun r => r <> []) (map (@rev ascii) strings.space_runes).
Proof. unfold strings.space_runes. cbn. repeat constructor; discriminate. Qed.

(** Trimming what [strings.TrimSpace] returned changes nothing. *)
Lemma TrimSpace_idempotent (s : string) :
  strings.TrimSpace (strings.TrimSpace s) = strings.TrimSpace s.
Proof.
  unfold strings.TrimSpace.
  set (l := strings.trim_left (list_ascii_of_string s)).
  assert (Hl : strings.strip_any strings.space_runes l = None)
    by apply trim_left_done.
  set (t := strings.trim_right l).
  assert (Htail : strings.strip_any (map (@rev ascii) strings.space_runes) (rev t)
                  = None).
  { subst t. unfold strings.trim_right. rewrite rev_involutive.
    apply trim_runes_done; [apply rev_space_runes_nonempty|].
    rewrite length_rev. apply Nat.le_refl. }
  assert (Hhead : strings.strip_any strings.space_runes t = None).
  { subst t. unfold strings.trim_right.
    destruct (trim_runes_suffix (map (@rev ascii) strings.space_runes)
                (List.length l) (rev l)) as (front & Hfront).
    apply (f_equal (@rev ascii)) in Hfront.
    rewrite rev_involutive, rev_app_distr in Hfront.
    apply (strip_any_extend _ _ (rev front)). now rewrite <- Hfront. }
  rewrite list_ascii_of_string_of_list_ascii.
  unfold strings.trim_left at 1. rewrite (trim_runes_fixed _ _ _ Hhead).
  unfold strings.trim_right at 1. rewrite (trim_runes_fixed _ _ _ Htail).
  now rewrite rev_involutive.
Qed.

Section Trimmed.

Context {H : Type} `{Host H}.

(** X15. On an attached vm, each UUID lookup returns after exactly one
    call, [blkid -s PARTUUID -o value] on the [p2] device file for the
    rootfs and on the [p1] device file for the ESP, and leaves the vm
    alone.  If [blkid] fails the lookup returns the empty string with the
    error of [blkid] itself, not wrapped; otherwise it returns the output
    with the white space around it removed, so trimming the UUID again
    changes nothing. *)
Theorem partition_uuid_lookup (v : vm) (w : @world H) :
  loopDevice v <> "" ->
  let lookup (m : @M H (string * option error)) (devFile : string) :=
    exists uuid err w',
      m v w = (Returned (uuid, err), v, w') /\
      log w' = (log w ++ [Event (Exec "blkid" ["-s"; "PARTUUID"; "-o"; "value";
                                               devFile]) err])%list /\
      (err <> None -> uuid = "") /\
      (err = None ->
       uuid = strings.TrimSpace
                (fst (fst (lxd_RunCommand (host w) "blkid"
                             ["-s"; "PARTUUID"; "-o"; "value"; devFile])))) /\
      strings.TrimSpace uuid = uuid in
  lookup getRootfsPartitionUUID (getRootfsDevFile v) /\
  lookup getUEFIPartitionUUID (getUEFIDevFile v).
Proof.
  intros Hdev lookup. subst lookup. cbv beta.
  unfold getRootfsPartitionUUID, getUEFIPartitionUUID, bind, this, lxd_run, ret.
  rewrite (eqb_empty_false _ Hdev).
  split.
  - destruct (lxd_RunCommand (host w) "blkid" _) as [[stdout [e|]] h1];
      cbn [fst].
    + eexists "", (Some e), _. split; [reflexivity|]. split; [reflexivity|].
      split; [reflexivity|]. split; [discriminate | reflexivity].
    + eexists _, None, _. split; [reflexivity|]. split; [reflexivity|].
      split; [intros N; now contradiction N|].
      split; [reflexivity | apply TrimSpace_idempotent].
  - destruct (lxd_RunCommand (host w) "blkid" _) as [[stdout [e|]] h1];
      cbn [fst].
    + eexists "", (Some e), _. split; [reflexivity|]. split; [reflexivity|].
      split; [reflexivity|]. split; [discriminate | reflexivity].
    + eexists _, None, _. split; [reflexivity|]. split; [reflexivity|].
      split; [intros N; now contradiction N|].
      split; [reflexivity | apply TrimSpace_idempotent].
Qed.

Lemma mountImage_recorded (v v' : vm) (w w' : @world H) r :
  loopDevice v = "" ->
  mountImage v w = (r, v', w') ->
  v' = v \/ exists stdout, v' = with_loopDevice v (strings.TrimSpace stdout).
Proof.
  intros Hdev. unfold mountImage.
  unfold bind at 1. unfold this at 1. rewrite Hdev. cbn [String.eqb negb].
  unfold bind at 1. unfold lxd_run at 1.
  destruct (lxd_RunCommand (host w) "losetup" _) as [[stdout [e|]] h1].
  { intros E. injection E as _ <- _. now left. }
  unfold bind at 1. unfold assign_loopDevice at 1.
  unfold bind at 1. unfold this at 1.
  unfold bind at 1. unfold lxd_run at 1. cbn [host log].
  set (v1 := with_loopDevice v (strings.TrimSpace stdout)).
  assert (Hv1 : forall x w1,
             (x, v1, w1) = (r, v', w') ->
             v' = v \/ exists stdout, v' = with_loopDevice v (strings.TrimSpace stdout)).
  { intros x w1 E. injection E as _ <- _. right. now exists stdout. }
  destruct (lxd_RunCommand h1 "lsblk" _) as [[out [e|]] h2]; [apply Hv1|].
  unfold bind at 1.
  match goal with
  | |- context [mountImage_node getUEFIDevFile 1 ?nums v1 ?w2] =>
      destruct (mountImage_node_calls getUEFIDevFile 1 nums v1 w2)
        as (r1 & w3 & nodes1 & Hrun1 & _)
  end.
  rewrite Hrun1. destruct r1 as [[e|]|msg]; try apply Hv1.
  unfold bind at 1.
  destruct (mountImage_node_calls getRootfsDevFile 2 (strings.Split out LF) v1 w3)
    as (r2 & w4 & nodes2 & Hrun2 & _).
  rewrite Hrun2. destruct r2 as [[e|]|msg]; apply Hv1.
Qed.

(** X16. The loop device path a vm records is always trimmed: whatever
    [mountImage] does on a detached vm -- return [nil], return an error or
    panic -- the path recorded afterwards has no white space at either
    end, so trimming it changes nothing. *)
Theorem mountImage_records_trimmed (v : vm) (w : @world H) :
  loopDevice v = "" ->
  let v' := fst (after mountImage v w) in
  strings.TrimSpace (loopDevice v') = loopDevice v'.
Proof.
  intros Hdev v'. subst v'. unfold after.
  destruct (mountImage v w) as [[r v'] w'] eqn:Hrun. cbn [fst].
  destruct (mountImage_recorded v v' w w' r Hdev Hrun) as [-> | (stdout & ->)].
  - rewrite Hdev. reflexivity.
  - apply TrimSpace_idempotent.
Qed.

End Trimmed.

Lemma partition_uuid_lookup_witness :
  exists w',
    getUEFIPartitionUUID attached_vm
      (start (Script ["/dev/loop0"] (tools listing3 []) None None))
    = (Returned ("0f3a-11", None), attached_vm, w').
Proof.
  destruct (partition_uuid_lookup attached_vm
              (start (Script ["/dev/loop0"] (tools listing3 []) None None))
              ltac:(discriminate))
    as (_ & uuid & err & w' & Hrun & _).
  exists w'. rewrite Hrun. vm_compute in Hrun. injection Hrun as <- <- _.
  reflexivity.
Defined.

Lemma mountImage_records_trimmed_witness :
  let w0 := start (Script [] (tools listing3 ["lsblk"]) None None) in
  loopDevice (fst (after mountImage detached_vm w0)) = "/dev/loop0" /\
  strings.TrimSpace "/dev/loop0" = "/dev/loop0".
Proof.
  intros w0. split; [reflexivity|].
  exact (mountImage_records_trimmed detached_vm w0 eq_refl).
Defined.

(* ===================================================================== *)
(** ** A loop device that vanished, and the errors of [mountImage] *)
(* ===================================================================== *)

Lemma Atoi_error (s : string) n err :
  strconv.Atoi s = (n, Some err) ->
  err = strconv_NumError "Atoi" s strconv_ErrSyntax \/
  err = strconv_NumError "Atoi" s strconv_ErrRange.
Proof.
  unfold strconv.Atoi.
  destruct (match s with
            | String "-" s' => (true, s')
            | String "+" s' => (false, s')
            | _ => (false, s)
            end) as [neg body].
  destruct body as [|c body]; [intros E; injection E as _ <-; now left|].
  destruct (strconv.parse_digits 0 (String c body)) as [un| |].
  - destruct (negb neg && (2 ^ 63 <=? un)%Z);
      [intros E; injection E as _ <-; now right|].
    destruct (neg && (2 ^ 63 <? un)%Z);
      [intros E; injection E as _ <-; now right | discriminate].
  - intros E; injection E as _ <-; now left.
  - intros E; injection E as _ <-; now right.
Qed.

Section Errors.

Context {H : Type} `{Host H}.

(** X17. A loop device that vanished stays recorded: on an attached vm
    whose loop device path no longer exists on the host, [umountImage]
    followed by [mountImage] returns [nil] without a single call and the vm
    still records the old path, so this pair of calls never binds the
    image again. *)
Theorem vanished_loop_device_stays (v : vm) (w : @world H) :
  loopDevice v <> "" ->
  lxd_PathExists (host w) (loopDevice v) = false ->
  (umountImage ;;; mountImage) v w = (Returned None, v, w).
Proof.
  intros Hdev Hgone.
  assert (Humount : umountImage v w = (Returned None, v, w)).
  { unfold umountImage, bind, this, path_exists, ret.
    now rewrite (eqb_empty_false _ Hdev), Hgone. }
  unfold bind at 1. rewrite Humount. now apply mountImage_attached.
Qed.

Lemma mountImage_node_vm getDevFile line nums (v v' : vm) (w w' : @world H) r :
  mountImage_node getDevFile line nums v w = (r, v', w') -> v' = v.
Proof.
  destruct (mountImage_node_calls getDevFile line nums v w)
    as (r0 & w0 & nodes & Hrun & _).
  rewrite Hrun. intros E. now injection E as _ <- _.
Qed.

(** The errors of one reconciliation block. *)
Lemma mountImage_node_error getDevFile line nums (v v' : vm) (w w' : @world H) e :
  mountImage_node getDevFile line nums v w = (Returned (Some e), v', w') ->
  (exists field cause,
      e = fmt_Errorf_w "Failed to parse %q: %w" [field]
            (strconv_NumError "Atoi" field cause) /\
      (cause = strconv_ErrSyntax \/ cause = strconv_ErrRange) /\
      w' = w)
  \/ (exists cause mode dev,
         e = fmt_Errorf_w "Failed to create block device %q: %w"
               [getDevFile v] cause /\
         log w' = (log w ++ [Event (Mknod (getDevFile v) mode dev)
                               (Some cause)])%list).
Proof.
  unfold mountImage_node, bind, this, path_exists, index, host_call, ret, panic.
  destruct (lxd_PathExists (host w) (getDevFile v)); cbn [negb];
    [discriminate|].
  destruct (nth_error nums line) as [entry|]; [|discriminate].
  destruct (nth_error (strings.Split entry ":") 0) as [f0|]; [|discriminate].
  destruct (strconv.Atoi f0) as [major [e0|]] eqn:E0.
  { intros E. injection E as <- _ <-. left.
    destruct (Atoi_error _ _ _ E0) as [-> | ->]; eexists _, _; eauto. }
  destruct (nth_error (strings.Split entry ":") 1) as [f1|]; [|discriminate].
  destruct (strconv.Atoi f1) as [minor [e1|]] eqn:E1.
  { intros E. injection E as <- _ <-. left.
    destruct (Atoi_error _ _ _ E1) as [-> | ->]; eexists _, _; eauto. }
  destruct (unix_Mknod (host w) _ _ _) as [[e2|] h1]; [|discriminate].
  intros E. injection E as <- _ <-. right. now eexists _, _, _.
Qed.

(** X18. Every error [mountImage] returns is built by [fmt.Errorf] with one
    of four formats: "Failed to setup loop device" and "Failed to list
    block devices" wrap the error of the command, "Failed to parse" names
    the field of the listing that [strconv.Atoi] refused and wraps its
    syntax or range error, and "Failed to create block device" names a
    partition device file of the vm and wraps the error of a [mknod] that
    is the last call in the log. *)
Theorem mountImage_errors (v v' : vm) (w w' : @world H) e :
  mountImage v w = (Returned (Some e), v', w') ->
  (exists cause,
      e = fmt_Errorf_w "Failed to setup loop device: %w" [] cause \/
      e = fmt_Errorf_w "Failed to list block devices: %w" [] cause)
  \/ (exists field cause,
         e = fmt_Errorf_w "Failed to parse %q: %w" [field]
               (strconv_NumError "Atoi" field cause) /\
         (cause = strconv_ErrSyntax \/ cause = strconv_ErrRange))
  \/ (exists cause devFile mode dev earlier,
         e = fmt_Errorf_w "Failed to create block device %q: %w" [devFile] cause /\
         (devFile = getUEFIDevFile v' \/ devFile = getRootfsDevFile v') /\
         log w' = (earlier ++ [Event (Mknod devFile mode dev) (Some cause)])%list).
Proof.
  unfold mountImage. unfold bind at 1. unfold this at 1.
  destruct (negb (String.eqb (loopDevice v) "")); [discriminate|].
  unfold bind at 1. unfold lxd_run at 1.
  destruct (lxd_RunCommand (host w) "losetup" _) as [[stdout [e0|]] h1].
  { intros E. injection E as <- _ _. left. eauto. }
  unfold bind at 1. unfold assign_loopDevice at 1.
  unfold bind at 1. unfold this at 1.
  unfold bind at 1. unfold lxd_run at 1. cbn [host log].
  set (v1 := with_loopDevice v (strings.TrimSpace stdout)).
  destruct (lxd_RunCommand h1 "lsblk" _) as [[out [e1|]] h2].
  { intros E. injection E as <- _ _. left. eauto. }
  unfold bind at 1.
  match goal with
  | |- context [mountImage_node getUEFIDevFile 1 ?nums v1 ?w2] =>
      destruct (mountImage_node getUEFIDevFile 1 nums v1 w2)
        as [[[[e2|]|msg] v3] w3] eqn:Hrun1
  end; try discriminate.
  { intros E. injection E as <- <- <-.
    pose proof (mountImage_node_vm _ _ _ _ _ _ _ _ Hrun1) as ->.
    destruct (mountImage_node_error _ _ _ _ _ _ _ _ Hrun1)
      as [(field & cause & -> & Hcause & _) | (cause & mode & dev & -> & Hlog)].
    - right. left. eauto.
    - right. right. eexists cause, _, mode, dev, _.
      split; [reflexivity|]. split; [now left | exact Hlog]. }
  pose proof (mountImage_node_vm _ _ _ _ _ _ _ _ Hrun1) as ->.
  unfold bind at 1.
  destruct (mountImage_node getRootfsDevFile 2 (strings.Split out LF) v1 w3)
    as [[[[e3|]|msg] v4] w4] eqn:Hrun2; try discriminate.
  intros E. injection E as <- <- <-.
  pose proof (mountImage_node_vm _ _ _ _ _ _ _ _ Hrun2) as ->.
  destruct (mountImage_node_error _ _ _ _ _ _ _ _ Hrun2)
    as [(field & cause & -> & Hcause & _) | (cause & mode & dev & -> & Hlog)].
  - right. left. eauto.
  - right. right. eexists cause, _, mode, dev, _.
    split; [reflexivity|]. split; [now right | exact Hlog].
Qed.

End Errors.

Lemma vanished_loop_device_stays_witness :
  (umountImage ;;; mountImage) attached_vm
    (start (Script [] (tools listing3 []) None None))
  = (Returned None, attached_vm, start (Script [] (tools listing3 []) None None)).
Proof.
  apply (vanished_loop_device_stays attached_vm
           (start (Script [] (tools listing3 []) None None))).
  - discriminate.
  - reflexivity.
Defined.

Lemma mountImage_errors_witness :
  exists field cause,
    fst (fst (mountImage detached_vm
                (start (Script [] (tools ("7:0" ++ LF ++ "a:1" ++ LF) [])
                          None None))))
    = Returned (Some (fmt_Errorf_w "Failed to parse %q: %w" [field]
                        (strconv_NumError "Atoi" field cause))).
Proof.
  pose (w0 := start (Script [] (tools ("7:0" ++ LF ++ "a:1" ++ LF) []) None None)).
  pose (res := mountImage detached_vm w0).
  assert (Hrun : mountImage detached_vm w0
                 = (Returned (Some (fmt_Errorf_w "Failed to parse %q: %w" ["a"]
                                      (strconv_NumError "Atoi" "a" strconv_ErrSyntax))),
                    snd (fst res), snd res))
    by (vm_compute; reflexivity).
  destruct (mountImage_errors _ _ _ _ _ Hrun)
    as [(cause & [E|E]) | [(field & cause & E & _)
                          | (cause & devFile & mode & dev & earlier & E & _)]];
    try discriminate E.
  exists field, cause. fold w0. rewrite Hrun. cbn [fst]. now rewrite E.
Defined.
